(** * FormBuilderV0: the left panel of the form-generation assistant

    A shallow embedding of the three variants of the [LeftPanel] React
    component and of the properties the specification states about them.

    - [Generator]: the single-purpose generator
      (client/src/components/left-panel.tsx);
    - [Editor]: the intermediate variant with an embedded edit-chat
      sub-panel and a staged configuration;
    - [Chat]: the unified chat transcript (generation and editing in one
      conversation);
    - [Theme]: the theme manager, which the three variants share word for
      word.

    React state, the shared form context, the notification list, the
    requests handed to the gateway and the browser's document and local
    storage are explicit state.  An event handler is a program of state
    updates with one suspension point per remote call; JavaScript
    exceptions are a completion of the program. *)

From Stdlib Require Import List NArith Ascii String Bool Arith Lia.
From ExtLib Require Import Structures.Monad.
Import ListNotations.
Import MonadNotation.
Local Open Scope monad_scope.
Local Open Scope N_scope.

(** ** JavaScript strings *)

Module JS.

(** A JavaScript string is a sequence of UTF-16 code units. *)
Definition jsstr : Type := list N.

(** An ASCII literal of the source as code units. *)
Definition lit (s : string) : jsstr := map N_of_ascii (list_ascii_of_string s).

Definition jsstr_eqb (a b : jsstr) : bool :=
  if list_eq_dec N.eq_dec a b then true else false.

(** ECMAScript's WhiteSpace and LineTerminator code points, the ones
    [String.prototype.trim] strips. *)
Definition isWhiteSpace (c : N) : bool :=
  existsb (N.eqb c)
    [0x9; 0xA; 0xB; 0xC; 0xD; 0x20; 0xA0; 0x1680; 0x2028; 0x2029; 0x202F;
     0x205F; 0x3000; 0xFEFF]
  || ((0x2000 <=? c) && (c <=? 0x200A)).

Fixpoint trimStart (s : jsstr) : jsstr :=
  match s with
  | [] => []
  | c :: r => if isWhiteSpace c then trimStart r else s
  end.

Definition trimEnd (s : jsstr) : jsstr := rev (trimStart (rev s)).

(** [s.trim()] *)
Definition trim (s : jsstr) : jsstr := trimEnd (trimStart s).

(** ToBoolean on a string: only the empty string is falsy. *)
Definition truthy (s : jsstr) : bool :=
  match s with [] => false | _ :: _ => true end.

(** The value a handler throws or a promise rejects with: an instance of
    [Error] carrying its [message], or any other value. *)
Inductive Thrown : Type :=
| ErrorObj (message : jsstr)
| OtherValue.

(** How a call ends. *)
Inductive completion (A : Type) : Type :=
| Returned (a : A)
| Threw (e : Thrown).

Arguments Returned {A} a.
Arguments Threw {A} e.
Arguments lit s : simpl never.

End JS.
Import JS.

(** ** Notifications *)

Inductive ToastVariant : Type := default | destructive.

(** The argument of [toast({ title, description, variant })]; an absent
    [variant] is [default]. *)
Record Toast : Type := mkToast {
  title : jsstr;
  description : jsstr;
  variant : ToastVariant
}.

(** ** Handlers as programs *)

Module Handler.

Section Program.
(** [St]: what the handler's setters write to; [Req], [Resp]: the
    requests awaited and the values they resolve with. *)
Variables St Req Resp : Type.

(** A settled promise of the gateway. *)
Inductive Settled : Type :=
| Fulfilled (v : Resp)
| Rejected (e : Thrown).

(** An async function body: it returns, throws, performs one state
    update and goes on, or awaits a request and goes on with the
    settled promise. *)
Inductive prog (A : Type) : Type :=
| Ret (a : A)
| Throw (e : Thrown)
| Do (f : St -> St) (k : prog A)
| Await (r : Req) (k : Settled -> prog A).

Arguments Ret {A} a.
Arguments Throw {A} e.
Arguments Do {A} f k.
Arguments Await {A} r k.

Fixpoint pbind {A B} (p : prog A) (g : A -> prog B) : prog B :=
  match p with
  | Ret a => g a
  | Throw e => Throw e
  | Do f k => Do f (pbind k g)
  | Await r k => Await r (fun s => pbind (k s) g)
  end.

(** [try { p } catch (e) { h e }] *)
Fixpoint try_catch {A} (p : prog A) (h : Thrown -> prog A) : prog A :=
  match p with
  | Ret a => Ret a
  | Throw e => h e
  | Do f k => Do f (try_catch k h)
  | Await r k => Await r (fun s => try_catch (k s) h)
  end.

(** [try { p } finally { fin }]: [fin] runs on both completions and the
    completion of [p] stands unless [fin] throws. *)
Fixpoint try_finally {A} (p : prog A) (fin : prog unit) : prog A :=
  match p with
  | Ret a => pbind fin (fun _ => Ret a)
  | Throw e => pbind fin (fun _ => Throw e)
  | Do f k => Do f (try_finally k fin)
  | Await r k => Await r (fun s => try_finally (k s) fin)
  end.

(** One setter call. *)
Definition perform (f : St -> St) : prog unit := Do f (Ret tt).

(** [await request]: a rejected promise throws at the await. *)
Definition await (r : Req) : prog Resp :=
  Await r (fun s => match s with
                    | Fulfilled v => Ret v
                    | Rejected e => Throw e
                    end).

(** *** Running a handler

    [issue] records a request in the state; [fetch] is the gateway: what
    the promise of a request settles with. *)
Variable issue : Req -> St -> St.
Variable fetch : Req -> Settled.

(** The state and completion a handler ends with. *)
Fixpoint exec {A} (p : prog A) (st : St) : St * completion A :=
  match p with
  | Ret a => (st, Returned a)
  | Throw e => (st, Threw e)
  | Do f k => exec k (f st)
  | Await r k => exec (k (fetch r)) (issue r st)
  end.

(** Every state the handler passes through, the first one included. *)
Fixpoint trace {A} (p : prog A) (st : St) : list St :=
  st :: match p with
        | Ret _ | Throw _ => []
        | Do f k => trace k (f st)
        | Await r k => trace (k (fetch r)) (issue r st)
        end.

Definition final {A} (p : prog A) (st : St) : St := fst (exec p st).
End Program.

Arguments Fulfilled {Resp} v.
Arguments Rejected {Resp} e.
Arguments Ret {St Req Resp A} a.
Arguments Throw {St Req Resp A} e.
Arguments Do {St Req Resp A} f k.
Arguments Await {St Req Resp A} r k.
Arguments perform {St Req Resp} f.
Arguments await {St Req Resp} r.
Arguments pbind {St Req Resp A B} p g.
Arguments try_catch {St Req Resp A} p h.
Arguments try_finally {St Req Resp A} p fin.
Arguments exec {St Req Resp} issue fetch {A} p st.
Arguments trace {St Req Resp} issue fetch {A} p st.
Arguments final {St Req Resp} issue fetch {A} p st.

#[export] Instance Monad_prog {St Req Resp} : Monad (prog St Req Resp) :=
  {| ret := fun _ a => Ret a; bind := fun _ _ p g => pbind p g |}.

(** Pairs of consecutive elements: the steps of a trace. *)
Fixpoint steps {A} (l : list A) : list (A * A) :=
  match l with
  | a :: ((b :: _) as r) => (a, b) :: steps r
  | _ => []
  end.

End Handler.
Import Handler.

(** ** Theme manager

    [applyTheme] and the mount effect that calls it are the same text in
    the three variants. *)

Module Theme.

(** What [fontMap[themeName]] evaluates to: [undefined], a string of the
    table, or a member the object literal inherits from
    [Object.prototype] (a function or an object, never a string). *)
Inductive jsval : Type :=
| undefined
| str (s : jsstr)
| inherited (key : jsstr).

(** The part of the browser the theme manager touches. *)
Record Browser : Type := mkBrowser {
  (** [document.documentElement.classList] *)
  classList : list jsstr;
  (** the value last handed to
      [document.documentElement.style.setProperty("--font-primary", _)];
      the string conversion the style sheet applies to it is not modelled *)
  fontPrimary : option jsval;
  (** [href] of the stylesheet links appended to [document.head] *)
  headLinks : list jsstr;
  (** [window.localStorage]: keys with their values; the storage has
      room, [setItem] does not throw *)
  localStorage : list (jsstr * jsstr);
  (** notifications emitted, oldest first *)
  toasts : list Toast
}.

Definition setClassList (c : list jsstr) (b : Browser) : Browser :=
  mkBrowser c (fontPrimary b) (headLinks b) (localStorage b) (toasts b).

Definition setFontPrimary (v : jsval) (b : Browser) : Browser :=
  mkBrowser (classList b) (Some v) (headLinks b) (localStorage b) (toasts b).

Definition setLocalStorage (s : list (jsstr * jsstr)) (b : Browser) : Browser :=
  mkBrowser (classList b) (fontPrimary b) (headLinks b) s (toasts b).

Definition appendLinks (l : list jsstr) (b : Browser) : Browser :=
  mkBrowser (classList b) (fontPrimary b) (headLinks b ++ l) (localStorage b)
    (toasts b).

Definition toast (t : Toast) (b : Browser) : Browser :=
  mkBrowser (classList b) (fontPrimary b) (headLinks b) (localStorage b)
    (toasts b ++ [t]).

(** *** DOMTokenList *)

(** The DOM standard's ASCII whitespace: TAB, LF, FF, CR, SPACE. *)
Definition isAsciiWhitespace (c : N) : bool :=
  existsb (N.eqb c) [0x9; 0xA; 0xC; 0xD; 0x20].

(** [classList.add(token)] throws a SyntaxError for the empty token and an
    InvalidCharacterError for a token with ASCII whitespace. *)
Definition validToken (t : jsstr) : bool :=
  truthy t && negb (existsb isAsciiWhitespace t).

(** [classList.remove(...tokens)] *)
Definition tokens_remove (tokens cl : list jsstr) : list jsstr :=
  filter (fun c => negb (existsb (jsstr_eqb c) tokens)) cl.

(** [classList.add(token)] for a valid token: appended unless present. *)
Definition tokens_add (token : jsstr) (cl : list jsstr) : list jsstr :=
  if existsb (jsstr_eqb token) cl then cl else cl ++ [token].

(** *** Storage *)

Fixpoint getItem (k : jsstr) (s : list (jsstr * jsstr)) : option jsstr :=
  match s with
  | [] => None
  | (k', v) :: r => if jsstr_eqb k k' then Some v else getItem k r
  end.

Fixpoint setItem (k v : jsstr) (s : list (jsstr * jsstr))
  : list (jsstr * jsstr) :=
  match s with
  | [] => [(k, v)]
  | (k', v') :: r =>
      if jsstr_eqb k k' then (k, v) :: r else (k', v') :: setItem k v r
  end.

(** *** applyTheme *)

Definition fontMap : list (jsstr * jsstr) :=
  [ (lit "modern", lit "'Poppins', sans-serif");
    (lit "classic", lit "'Merriweather', serif");
    (lit "elegant", lit "'Playfair Display', serif");
    (lit "minimalist", lit "'Inter', sans-serif");
    (lit "vibrant", lit "'Montserrat', sans-serif") ].

(** The property names every object literal inherits from
    [Object.prototype]. *)
Definition objectPrototypeKeys : list jsstr :=
  map lit
    [ "constructor"; "hasOwnProperty"; "isPrototypeOf";
      "propertyIsEnumerable"; "toLocaleString"; "toString"; "valueOf";
      "__proto__"; "__defineGetter__"; "__defineSetter__";
      "__lookupGetter__"; "__lookupSetter__" ]%string.

(** [o[k]] on an object literal with string members: the own member, else
    the inherited one, else [undefined]. *)
Definition getProperty (o : list (jsstr * jsstr)) (k : jsstr) : jsval :=
  match getItem k o with
  | Some v => str v
  | None =>
      if existsb (jsstr_eqb k) objectPrototypeKeys then inherited k
      else undefined
  end.

Definition themeKey : jsstr := lit "theme-preset".

Definition markerClasses : list jsstr :=
  map lit
    [ "theme-modern"; "theme-classic"; "theme-elegant"; "theme-minimalist";
      "theme-vibrant"; "dark" ]%string.

(** For an invalid token [classList.add] throws a DOMException, which is
    an [Error]; its message is the browser's and stands here as the
    exception's name.  The statements after it do not run. *)
Definition applyTheme (themeName : jsstr) (b : Browser)
  : Browser * completion unit :=
  let b1 := setClassList (tokens_remove markerClasses (classList b)) b in
  let token := lit "theme-" ++ themeName in
  if validToken token then
    let b2 := setClassList (tokens_add token (classList b1)) b1 in
    let b3 := setLocalStorage (setItem themeKey themeName (localStorage b2)) b2 in
    let b4 := setFontPrimary (getProperty fontMap themeName) b3 in
    (toast (mkToast (lit "Theme Changed")
              (lit "Applied " ++ themeName ++ lit " theme and font") default)
       b4,
     Returned tt)
  else (b1, Threw (ErrorObj (lit "InvalidCharacterError"))).

(** *** Startup *)

Definition fontLinks : list jsstr :=
  map lit
    [ "https://fonts.googleapis.com/css2?family=Poppins:wght@400;500;600;700&display=swap";
      "https://fonts.googleapis.com/css2?family=Merriweather:wght@400;700&display=swap";
      "https://fonts.googleapis.com/css2?family=Playfair+Display:wght@400;500;600;700&display=swap";
      "https://fonts.googleapis.com/css2?family=Inter:wght@400;500;600;700&display=swap";
      "https://fonts.googleapis.com/css2?family=Montserrat:wght@400;500;600;700&display=swap"
    ]%string.

(** [localStorage.getItem("theme-preset") || "modern"] *)
Definition savedTheme (b : Browser) : jsstr :=
  match getItem themeKey (localStorage b) with
  | Some s => if truthy s then s else lit "modern"
  | None => lit "modern"
  end.

(** The effect run once when the panel mounts ("Load fonts and initialize
    theme"). *)
Definition initializeTheme (b : Browser) : Browser * completion unit :=
  match applyTheme (savedTheme b) b with
  | (b', Returned _) => (appendLinks fontLinks b', Returned tt)
  | (b', Threw e) => (b', Threw e)
  end.

(** The theme menu's entries; each calls [applyTheme] with its name. *)
Definition themes : list jsstr :=
  map lit [ "modern"; "classic"; "elegant"; "minimalist"; "vibrant" ]%string.

(** A page reload: a new document, whose root element carries the classes
    [classes] of the page's markup; local storage is all that is kept. *)
Definition reload (classes : list jsstr) (b : Browser) : Browser :=
  mkBrowser classes None [] (localStorage b) [].

(** A first visit: the page's markup and an empty local storage. *)
Definition firstVisit (classes : list jsstr) : Browser :=
  mkBrowser classes None [] [] [].

End Theme.

(** ** The remote gateway

    [apiRequest] of lib/queryClient is not part of the panel: a request is
    a value handed to it, and the promise it returns settles with a
    response body or rejects.  [FormConfig] of shared/types is a type
    parameter: an object type, so every value of it is truthy. *)

Module Gateway.

Section WithConfig.
Variable FormConfig : Type.

(** The object given to [JSON.stringify] for the request body, kept
    structured. *)
Inductive Payload : Type :=
| PromptPayload (prompt : jsstr)
| EditPayload (json : FormConfig) (instruction : jsstr).

Record Request : Type := mkRequest {
  url : jsstr;
  method : jsstr;
  body : Payload;
  headers : list (jsstr * jsstr)
}.

(** A response body; [config] is the only member the panel reads, and it
    may be missing. *)
Record Response : Type := mkResponse {
  config : option FormConfig
}.

Definition jsonHeaders : list (jsstr * jsstr) :=
  [ (lit "Content-Type", lit "application/json") ].

(** [POST /api/prompt] with [{ prompt }] *)
Definition promptRequest (promptText : jsstr) : Request :=
  mkRequest (lit "/api/prompt") (lit "POST") (PromptPayload promptText)
    jsonHeaders.

(** [POST /api/edit-json] with [{ json, instruction }] *)
Definition editRequest (json : FormConfig) (instruction : jsstr) : Request :=
  mkRequest (lit "/api/edit-json") (lit "POST") (EditPayload json instruction)
    jsonHeaders.

(** A call fails when the promise rejects (a non-success response or a
    thrown error) or the body it resolves with has no [config]. *)
Definition failed (s : Settled Response) : bool :=
  match s with
  | Rejected _ => true
  | Fulfilled r => match config r with None => true | Some _ => false end
  end.

(** What a [catch] block around the call and its [config] check
    receives from a failed call: the rejection's value, or the error
    thrown for a body without [config]. *)
Definition caught (s : Settled Response) : option Thrown :=
  match s with
  | Rejected e => Some e
  | Fulfilled r =>
      match config r with
      | None => Some (ErrorObj (lit "Invalid response from server"))
      | Some _ => None
      end
  end.

End WithConfig.

Arguments PromptPayload {FormConfig} prompt.
Arguments EditPayload {FormConfig} json instruction.
Arguments mkRequest {FormConfig} url method body headers.
Arguments url {FormConfig} r.
Arguments method {FormConfig} r.
Arguments body {FormConfig} r.
Arguments headers {FormConfig} r.
Arguments mkResponse {FormConfig} config.
Arguments config {FormConfig} r.
Arguments promptRequest {FormConfig} promptText.
Arguments editRequest {FormConfig} json instruction.
Arguments failed {FormConfig} s.
Arguments caught {FormConfig} s.

End Gateway.
Import Gateway.

(** [error instanceof Error ? error.message : fallback] *)
Definition messageOr (fallback : jsstr) (error : Thrown) : jsstr :=
  match error with
  | ErrorObj m => m
  | OtherValue => fallback
  end.

(** ** The single-purpose generator (left-panel.tsx) *)

Module Generator.

Section WithConfig.
Variable FormConfig : Type.
Local Abbreviation Request := (Gateway.Request FormConfig).
Local Abbreviation Response := (Gateway.Response FormConfig).

Record Panel : Type := mkPanel {
  (** [useState] of the prompt text area *)
  prompt : jsstr;
  (** [useState]: a generation is in flight *)
  isGenerating : bool;
  (** [useState] of the status bar text *)
  statusText : jsstr;
  (** [useState] of the status bar colour *)
  statusColor : jsstr;
  (** the shared form context: the committed configuration *)
  formConfig : option FormConfig;
  (** notifications emitted, oldest first *)
  toasts : list Toast;
  (** requests handed to [apiRequest], oldest first *)
  requests : list Request;
  (** [console.error] lines *)
  console : list (jsstr * Thrown)
}.

Definition setPrompt (v : jsstr) (st : Panel) : Panel :=
  mkPanel (v) (isGenerating st) (statusText st) (statusColor st) (formConfig
    st) (toasts st) (requests st) (console st).

Definition setIsGenerating (v : bool) (st : Panel) : Panel :=
  mkPanel (prompt st) (v) (statusText st) (statusColor st) (formConfig st)
    (toasts st) (requests st) (console st).

Definition setStatusText (v : jsstr) (st : Panel) : Panel :=
  mkPanel (prompt st) (isGenerating st) (v) (statusColor st) (formConfig st)
    (toasts st) (requests st) (console st).

Definition setStatusColor (v : jsstr) (st : Panel) : Panel :=
  mkPanel (prompt st) (isGenerating st) (statusText st) (v) (formConfig st)
    (toasts st) (requests st) (console st).

(** [setFormConfig] of the shared form context *)
Definition setFormConfig (v : option FormConfig) (st : Panel) : Panel :=
  mkPanel (prompt st) (isGenerating st) (statusText st) (statusColor st) (v)
    (toasts st) (requests st) (console st).

Definition toast (t : Toast) (st : Panel) : Panel :=
  mkPanel (prompt st) (isGenerating st) (statusText st) (statusColor st)
    (formConfig st) (toasts st ++ [t]) (requests st) (console st).

(** The request is handed to the gateway. *)
Definition issue (r : Request) (st : Panel) : Panel :=
  mkPanel (prompt st) (isGenerating st) (statusText st) (statusColor st)
    (formConfig st) (toasts st) (requests st ++ [r]) (console st).

Definition consoleError (l : jsstr * Thrown) (st : Panel) : Panel :=
  mkPanel (prompt st) (isGenerating st) (statusText st) (statusColor st)
    (formConfig st) (toasts st) (requests st) (console st ++ [l]).

(** The state the component mounts with; [committed] is what the shared
    context holds. *)
Definition initial (committed : option FormConfig) : Panel :=
  mkPanel [] false (lit "Ready") (lit "bg-green-500") committed [] [] [].

Local Abbreviation handler := (prog Panel Request Response unit).

Definition handleGenerateForm (promptValue : jsstr) : handler :=
  if negb (truthy (trim promptValue)) then
    perform (toast (mkToast (lit "Error") (lit "Please enter a prompt")
                      destructive))
  else
    perform (setIsGenerating true) ;;
    perform (setStatusText (lit "Generating form...")) ;;
    perform (setStatusColor (lit "bg-yellow-500")) ;;
    try_finally
      (try_catch
         (data <- await (promptRequest promptValue) ;;
          match config data with
          | Some c =>
              perform (setFormConfig (Some c)) ;;
              perform (setStatusText (lit "Form generated successfully")) ;;
              perform (setStatusColor (lit "bg-green-500")) ;;
              perform (toast (mkToast (lit "Success")
                                (lit "Form configuration generated successfully")
                                default))
          | None => Throw (ErrorObj (lit "Invalid response from server"))
          end)
         (fun error =>
            perform (consoleError (lit "Error generating form:", error)) ;;
            perform (setStatusText (lit "Form generation failed")) ;;
            perform (setStatusColor (lit "bg-red-500")) ;;
            perform (toast (mkToast (lit "Error")
                              (messageOr (lit "Failed to generate form") error)
                              destructive))))
      (perform (setIsGenerating false)).

(** A click on "Generate Form": the handler closes over the rendered
    [prompt]. *)
Definition generate (fetch : Request -> Settled Response) (st : Panel)
  : Panel :=
  final issue fetch (handleGenerateForm (prompt st)) st.

End WithConfig.

Arguments mkPanel {FormConfig}.
Arguments prompt {FormConfig} p.
Arguments isGenerating {FormConfig} p.
Arguments statusText {FormConfig} p.
Arguments statusColor {FormConfig} p.
Arguments formConfig {FormConfig} p.
Arguments toasts {FormConfig} p.
Arguments requests {FormConfig} p.
Arguments console {FormConfig} p.
Arguments setPrompt {FormConfig} v st.
Arguments setIsGenerating {FormConfig} v st.
Arguments setStatusText {FormConfig} v st.
Arguments setStatusColor {FormConfig} v st.
Arguments setFormConfig {FormConfig} v st.
Arguments toast {FormConfig} t st.
Arguments consoleError {FormConfig} l st.
Arguments issue {FormConfig} r st.
Arguments initial {FormConfig} committed.
Arguments handleGenerateForm {FormConfig} promptValue.
Arguments generate {FormConfig} fetch st.

End Generator.

(** ** Chat messages *)

Inductive Role : Type := user | assistant | system.

(** ** The intermediate variant: generator with an edit-chat sub-panel *)

Module Editor.

(** "minimal chat message type" *)
Record ChatMessage : Type := mkMessage {
  role : Role;
  content : jsstr
}.

Section WithConfig.
Variable FormConfig : Type.
Local Abbreviation Request := (Gateway.Request FormConfig).
Local Abbreviation Response := (Gateway.Response FormConfig).

Record Panel : Type := mkPanel {
  (** [useState] of the prompt text area *)
  prompt : jsstr;
  (** [useState]: a generation is in flight *)
  isGenerating : bool;
  (** [useState] of the status bar text *)
  statusText : jsstr;
  (** [useState] of the status bar colour *)
  statusColor : jsstr;
  (** [useState]: the configuration as generated *)
  generatedConfig : option FormConfig;
  (** [useState]: the staged configuration the edit chat works on *)
  editedConfig : option FormConfig;
  (** [useState] of the edit chat's transcript *)
  chatHistory : list ChatMessage;
  (** [useState]: the edit-chat sub-panel is shown *)
  showEditor : bool;
  (** [useState] of the edit chat's input *)
  chatInput : jsstr;
  (** the shared form context: the committed configuration *)
  formConfig : option FormConfig;
  (** notifications emitted, oldest first *)
  toasts : list Toast;
  (** requests handed to [apiRequest], oldest first *)
  requests : list Request;
  (** [console.error] lines *)
  console : list (jsstr * Thrown)
}.

Definition setPrompt (v : jsstr) (st : Panel) : Panel :=
  mkPanel (v) (isGenerating st) (statusText st) (statusColor st)
    (generatedConfig st) (editedConfig st) (chatHistory st) (showEditor st)
    (chatInput st) (formConfig st) (toasts st) (requests st) (console st).

Definition setIsGenerating (v : bool) (st : Panel) : Panel :=
  mkPanel (prompt st) (v) (statusText st) (statusColor st) (generatedConfig
    st) (editedConfig st) (chatHistory st) (showEditor st) (chatInput st)
    (formConfig st) (toasts st) (requests st) (console st).

Definition setStatusText (v : jsstr) (st : Panel) : Panel :=
  mkPanel (prompt st) (isGenerating st) (v) (statusColor st) (generatedConfig
    st) (editedConfig st) (chatHistory st) (showEditor st) (chatInput st)
    (formConfig st) (toasts st) (requests st) (console st).

Definition setStatusColor (v : jsstr) (st : Panel) : Panel :=
  mkPanel (prompt st) (isGenerating st) (statusText st) (v) (generatedConfig
    st) (editedConfig st) (chatHistory st) (showEditor st) (chatInput st)
    (formConfig st) (toasts st) (requests st) (console st).

Definition setGeneratedConfig (v : option FormConfig) (st : Panel) : Panel :=
  mkPanel (prompt st) (isGenerating st) (statusText st) (statusColor st) (v)
    (editedConfig st) (chatHistory st) (showEditor st) (chatInput st)
    (formConfig st) (toasts st) (requests st) (console st).

Definition setEditedConfig (v : option FormConfig) (st : Panel) : Panel :=
  mkPanel (prompt st) (isGenerating st) (statusText st) (statusColor st)
    (generatedConfig st) (v) (chatHistory st) (showEditor st) (chatInput st)
    (formConfig st) (toasts st) (requests st) (console st).

(** [setChatHistory] with an updater function; a plain value is the constant updater *)
Definition setChatHistory (f : list ChatMessage -> list ChatMessage) (st : Panel) : Panel :=
  mkPanel (prompt st) (isGenerating st) (statusText st) (statusColor st)
    (generatedConfig st) (editedConfig st) (f (chatHistory st)) (showEditor
    st) (chatInput st) (formConfig st) (toasts st) (requests st) (console st).

Definition setShowEditor (v : bool) (st : Panel) : Panel :=
  mkPanel (prompt st) (isGenerating st) (statusText st) (statusColor st)
    (generatedConfig st) (editedConfig st) (chatHistory st) (v) (chatInput st)
    (formConfig st) (toasts st) (requests st) (console st).

Definition setChatInput (v : jsstr) (st : Panel) : Panel :=
  mkPanel (prompt st) (isGenerating st) (statusText st) (statusColor st)
    (generatedConfig st) (editedConfig st) (chatHistory st) (showEditor st)
    (v) (formConfig st) (toasts st) (requests st) (console st).

(** [setFormConfig] of the shared form context *)
Definition setFormConfig (v : option FormConfig) (st : Panel) : Panel :=
  mkPanel (prompt st) (isGenerating st) (statusText st) (statusColor st)
    (generatedConfig st) (editedConfig st) (chatHistory st) (showEditor st)
    (chatInput st) (v) (toasts st) (requests st) (console st).

Definition toast (t : Toast) (st : Panel) : Panel :=
  mkPanel (prompt st) (isGenerating st) (statusText st) (statusColor st)
    (generatedConfig st) (editedConfig st) (chatHistory st) (showEditor st)
    (chatInput st) (formConfig st) (toasts st ++ [t]) (requests st) (console
    st).

(** The request is handed to the gateway. *)
Definition issue (r : Request) (st : Panel) : Panel :=
  mkPanel (prompt st) (isGenerating st) (statusText st) (statusColor st)
    (generatedConfig st) (editedConfig st) (chatHistory st) (showEditor st)
    (chatInput st) (formConfig st) (toasts st) (requests st ++ [r]) (console
    st).

Definition consoleError (l : jsstr * Thrown) (st : Panel) : Panel :=
  mkPanel (prompt st) (isGenerating st) (statusText st) (statusColor st)
    (generatedConfig st) (editedConfig st) (chatHistory st) (showEditor st)
    (chatInput st) (formConfig st) (toasts st) (requests st) (console st ++
    [l]).

(** The state the component mounts with; [committed] is what the shared
    context holds. *)
Definition initial (committed : option FormConfig) : Panel :=
  mkPanel [] false (lit "Ready") (lit "bg-green-500") None None [] false []
    committed [] [] [].

Local Abbreviation handler := (prog Panel Request Response unit).

Definition handleGenerateForm (promptValue : jsstr) : handler :=
  if negb (truthy (trim promptValue)) then
    perform (toast (mkToast (lit "Error") (lit "Please enter a prompt")
                      destructive))
  else
    perform (setIsGenerating true) ;;
    perform (setStatusText (lit "Generating form...")) ;;
    perform (setStatusColor (lit "bg-yellow-500")) ;;
    try_finally
      (try_catch
         (data <- await (promptRequest promptValue) ;;
          match config data with
          | Some c =>
              perform (setGeneratedConfig (Some c)) ;;
              perform (setEditedConfig (Some c)) ;;
              perform (setChatHistory (fun _ =>
                [ mkMessage assistant
                    (lit "Here" ++ [0x2019] ++
                     lit "s your initial JSON. You can now ask me to tweak it.")
                ])) ;;
              perform (setShowEditor true) ;;
              perform (setStatusText (lit "Form generated successfully")) ;;
              perform (setStatusColor (lit "bg-green-500")) ;;
              perform (toast (mkToast (lit "Success")
                                (lit "Form configuration generated successfully")
                                default))
          | None => Throw (ErrorObj (lit "Invalid response from server"))
          end)
         (fun error =>
            perform (consoleError (lit "Error generating form:", error)) ;;
            perform (setStatusText (lit "Form generation failed")) ;;
            perform (setStatusColor (lit "bg-red-500")) ;;
            perform (toast (mkToast (lit "Error")
                              (messageOr (lit "Failed to generate form") error)
                              destructive))))
      (perform (setIsGenerating false)).

(** The handler closes over the rendered [editedConfig]. *)
Definition handleChatSend (editedConfigValue : option FormConfig)
  (userText : jsstr) : handler :=
  match editedConfigValue with
  | None => Ret tt
  | Some edited =>
      if negb (truthy (trim userText)) then Ret tt
      else
        perform (setChatHistory (fun h => h ++ [mkMessage user userText])) ;;
        try_catch
          (res <- await (editRequest edited userText) ;;
           perform (setEditedConfig (config res)) ;;
           perform (setChatHistory (fun h =>
             h ++ [ mkMessage assistant
                      (0x2705 :: lit " Done! Here" ++ [0x2019] ++
                       lit "s the updated JSON.") ])))
          (fun err =>
             perform (consoleError
                        (lit "JSON" ++ [0x2011] ++ lit "edit error:", err)) ;;
             perform (toast (mkToast (lit "Error")
                               (lit "Failed to apply your edit.")
                               destructive)))
  end.

(** The click handler of "Apply Changes to Form". *)
Definition applyChanges (st : Panel) : Panel :=
  match editedConfig st with
  | Some edited =>
      toast (mkToast (lit "Applied edits") (lit "Form JSON updated") default)
        (setShowEditor false (setFormConfig (Some edited) st))
  | None => st
  end.

Definition generate (fetch : Request -> Settled Response) (st : Panel)
  : Panel :=
  final issue fetch (handleGenerateForm (prompt st)) st.

End WithConfig.

Arguments mkPanel {FormConfig}.
Arguments prompt {FormConfig} p.
Arguments isGenerating {FormConfig} p.
Arguments statusText {FormConfig} p.
Arguments statusColor {FormConfig} p.
Arguments generatedConfig {FormConfig} p.
Arguments editedConfig {FormConfig} p.
Arguments chatHistory {FormConfig} p.
Arguments showEditor {FormConfig} p.
Arguments chatInput {FormConfig} p.
Arguments formConfig {FormConfig} p.
Arguments toasts {FormConfig} p.
Arguments requests {FormConfig} p.
Arguments console {FormConfig} p.
Arguments setPrompt {FormConfig} v st.
Arguments setIsGenerating {FormConfig} v st.
Arguments setStatusText {FormConfig} v st.
Arguments setStatusColor {FormConfig} v st.
Arguments setGeneratedConfig {FormConfig} v st.
Arguments setEditedConfig {FormConfig} v st.
Arguments setChatHistory {FormConfig} f st.
Arguments setShowEditor {FormConfig} v st.
Arguments setChatInput {FormConfig} v st.
Arguments setFormConfig {FormConfig} v st.
Arguments toast {FormConfig} t st.
Arguments consoleError {FormConfig} l st.
Arguments issue {FormConfig} r st.
Arguments initial {FormConfig} committed.
Arguments handleGenerateForm {FormConfig} promptValue.
Arguments handleChatSend {FormConfig} editedConfigValue userText.
Arguments applyChanges {FormConfig} st.
Arguments generate {FormConfig} fetch st.

End Editor.

(** ** The unified chat *)

(** "Message type for chat history" *)
Module Msg.

Section WithConfig.
Variable FormConfig : Type.

(** [isGenerating] and [jsonData] are optional members: an absent flag is
    falsy, an absent or null payload is [None]. *)
Record ChatMessage : Type := mkMessage {
  role : Role;
  content : jsstr;
  timestamp : N;
  isGenerating : bool;
  jsonData : option FormConfig
}.

End WithConfig.

Arguments mkMessage {FormConfig} role content timestamp isGenerating jsonData.
Arguments role {FormConfig} c.
Arguments content {FormConfig} c.
Arguments timestamp {FormConfig} c.
Arguments isGenerating {FormConfig} c.
Arguments jsonData {FormConfig} c.

End Msg.

Module Chat.

Section WithConfig.
Variable FormConfig : Type.
Local Abbreviation Request := (Gateway.Request FormConfig).
Local Abbreviation Response := (Gateway.Response FormConfig).
Local Abbreviation ChatMessage := (Msg.ChatMessage FormConfig).

Record Panel : Type := mkPanel {
  (** [useState] of the prompt text area *)
  prompt : jsstr;
  (** [useState] of the transcript *)
  chatHistory : list ChatMessage;
  (** [useState]: a generation is in flight *)
  isGenerating : bool;
  (** [useState] of the status bar text *)
  statusText : jsstr;
  (** [useState] of the status bar colour *)
  statusColor : jsstr;
  (** the shared form context: the committed configuration *)
  formConfig : option FormConfig;
  (** notifications emitted, oldest first *)
  toasts : list Toast;
  (** requests handed to [apiRequest], oldest first *)
  requests : list Request;
  (** [console.error] lines *)
  console : list (jsstr * Thrown)
}.

Definition setPrompt (v : jsstr) (st : Panel) : Panel :=
  mkPanel (v) (chatHistory st) (isGenerating st) (statusText st) (statusColor
    st) (formConfig st) (toasts st) (requests st) (console st).

(** [setChatHistory] with an updater function; a plain value is the constant updater *)
Definition setChatHistory (f : list ChatMessage -> list ChatMessage) (st : Panel) : Panel :=
  mkPanel (prompt st) (f (chatHistory st)) (isGenerating st) (statusText st)
    (statusColor st) (formConfig st) (toasts st) (requests st) (console st).

Definition setIsGenerating (v : bool) (st : Panel) : Panel :=
  mkPanel (prompt st) (chatHistory st) (v) (statusText st) (statusColor st)
    (formConfig st) (toasts st) (requests st) (console st).

Definition setStatusText (v : jsstr) (st : Panel) : Panel :=
  mkPanel (prompt st) (chatHistory st) (isGenerating st) (v) (statusColor st)
    (formConfig st) (toasts st) (requests st) (console st).

Definition setStatusColor (v : jsstr) (st : Panel) : Panel :=
  mkPanel (prompt st) (chatHistory st) (isGenerating st) (statusText st) (v)
    (formConfig st) (toasts st) (requests st) (console st).

(** [setFormConfig] of the shared form context *)
Definition setFormConfig (v : option FormConfig) (st : Panel) : Panel :=
  mkPanel (prompt st) (chatHistory st) (isGenerating st) (statusText st)
    (statusColor st) (v) (toasts st) (requests st) (console st).

Definition toast (t : Toast) (st : Panel) : Panel :=
  mkPanel (prompt st) (chatHistory st) (isGenerating st) (statusText st)
    (statusColor st) (formConfig st) (toasts st ++ [t]) (requests st) (console
    st).

(** The request is handed to the gateway. *)
Definition issue (r : Request) (st : Panel) : Panel :=
  mkPanel (prompt st) (chatHistory st) (isGenerating st) (statusText st)
    (statusColor st) (formConfig st) (toasts st) (requests st ++ [r]) (console
    st).

Definition consoleError (l : jsstr * Thrown) (st : Panel) : Panel :=
  mkPanel (prompt st) (chatHistory st) (isGenerating st) (statusText st)
    (statusColor st) (formConfig st) (toasts st) (requests st) (console st ++
    [l]).

Local Abbreviation handler := (prog Panel Request Response unit).

(** The state the component mounts with; [t] is the clock's reading. *)
Definition initial (t : N) (committed : option FormConfig) : Panel :=
  mkPanel []
    [ Msg.mkMessage system
        (lit "Welcome to Forms Engine! Enter a prompt to generate a form.")
        t false None ]
    false (lit "Ready") (lit "bg-green-500") committed [] [] [].

(** [prev.filter(msg => !msg.isGenerating)] *)
Definition removePlaceholders (prev : list ChatMessage) : list ChatMessage :=
  filter (fun msg => negb (Msg.isGenerating msg)) prev.

(** [tDone] is the clock's reading when the awaited call has settled. *)
Definition handleInitialFormGeneration (tDone : N) (promptText : jsstr)
  : handler :=
  perform (setStatusText (lit "Generating form...")) ;;
  perform (setStatusColor (lit "bg-yellow-500")) ;;
  data <- await (promptRequest promptText) ;;
  match config data with
  | None => Throw (ErrorObj (lit "Invalid response from server"))
  | Some c =>
      perform (setFormConfig (Some c)) ;;
      perform (setStatusText (lit "Form generated successfully")) ;;
      perform (setStatusColor (lit "bg-green-500")) ;;
      perform (setChatHistory removePlaceholders) ;;
      perform (setChatHistory (fun prev =>
        prev ++ [ Msg.mkMessage assistant
                    (0x2705 :: lit " Form generated successfully! Here's the JSON. You can now ask me to modify specific parts of the form.")
                    tDone false (Some c) ])) ;;
      perform (toast (mkToast (lit "Success")
                        (lit "Form configuration generated successfully")
                        default))
  end.

(** The handler closes over the rendered [formConfig]. *)
Definition handleJsonEdit (formConfigValue : option FormConfig) (tDone : N)
  (instruction : jsstr) : handler :=
  match formConfigValue with
  | None => Throw (ErrorObj (lit "No form configuration to edit"))
  | Some current =>
      res <- await (editRequest current instruction) ;;
      match config res with
      | None => Throw (ErrorObj (lit "Invalid response from server"))
      | Some c =>
          perform (setFormConfig (Some c)) ;;
          perform (setChatHistory removePlaceholders) ;;
          perform (setChatHistory (fun prev =>
            prev ++ [ Msg.mkMessage assistant
                        (0x2705 :: lit " Form updated successfully! Here's the updated JSON. You can continue making changes or test the form.")
                        tDone false (Some c) ])) ;;
          perform (toast (mkToast (lit "Success")
                            (lit "Form configuration updated successfully")
                            default))
      end
  end.

(** The [catch] block of [handleSendMessage]. *)
Definition onSendError (tDone : N) (error : Thrown) : handler :=
  perform (consoleError (lit "Error:", error)) ;;
  perform (setChatHistory removePlaceholders) ;;
  perform (setChatHistory (fun prev =>
    prev ++ [ Msg.mkMessage assistant
                (lit "Error: " ++ messageOr (lit "Something went wrong") error)
                tDone false None ])) ;;
  perform (toast (mkToast (lit "Error")
                    (messageOr (lit "Failed to process request") error)
                    destructive)).

(** [tSent] is the clock's reading at the submission. *)
Definition handleSendMessage (formConfigValue : option FormConfig)
  (tSent tDone : N) (userText : jsstr) : handler :=
  if negb (truthy (trim userText)) then Ret tt
  else
    perform (setChatHistory (fun prev =>
      prev ++ [Msg.mkMessage user userText tSent false None])) ;;
    perform (setPrompt []) ;;
    perform (setIsGenerating true) ;;
    perform (setChatHistory (fun prev =>
      prev ++ [Msg.mkMessage assistant (lit "Generating...") tSent true None])) ;;
    let isInitialGeneration :=
      match formConfigValue with None => true | Some _ => false end in
    try_finally
      (try_catch
         (if isInitialGeneration
          then handleInitialFormGeneration tDone userText
          else handleJsonEdit formConfigValue tDone userText)
         (onSendError tDone))
      (perform (setIsGenerating false)).

(** The request a submission of [userText] hands to the gateway: the one
    of [handleInitialFormGeneration] when no configuration is committed,
    the one of [handleJsonEdit] for the committed one otherwise. *)
Definition routed (committed : option FormConfig) (userText : jsstr)
  : Request :=
  match committed with
  | None => promptRequest userText
  | Some c => editRequest c userText
  end.

(** A submission from the rendered state [st]: the send button's click and
    the Enter key both call [handleSendMessage(prompt)]. *)
Definition submission (tSent tDone : N) (st : Panel) : handler :=
  handleSendMessage (formConfig st) tSent tDone (prompt st).

(** The text area is [disabled={isGenerating}], the send button
    [disabled={isGenerating || !prompt.trim()}]. *)
Definition inputDisabled (st : Panel) : bool := isGenerating st.

Definition sendDisabled (st : Panel) : bool :=
  isGenerating st || negb (truthy (trim (prompt st))).

(** [handleKeyDown]: Enter without shift submits. *)
Definition handleKeyDown (key : jsstr) (shiftKey : bool) (tSent tDone : N)
  (st : Panel) : handler :=
  if jsstr_eqb key (lit "Enter") && negb shiftKey
  then submission tSent tDone st
  else Ret tt.

(** *** The chat state machine

    Handlers run to completion between suspension points, so other
    events reach the panel only while a call is awaited.  The panel's
    other handlers (theme, copy, download) only notify, and the shared
    form context may be written by its other consumers: that is the
    [interference] a waiting submission sees. *)
Inductive interference : (Panel -> Panel) -> Prop :=
| interference_none : interference (fun st => st)
| interference_notify t env :
    interference env -> interference (fun st => toast t (env st))
| interference_context committed env :
    interference env -> interference (fun st => setFormConfig committed (env st)).

(** The request is handed to the gateway and the handler waits. *)
Definition issueAndWait (env : Panel -> Panel) (r : Request) (st : Panel)
  : Panel :=
  env (issue r st).

(** The states the panel passes through: it mounts in [initial]; while
    the text area is enabled the user edits the prompt and submits it, by
    the key or the button; a submission passes through every state of its
    handler's trace, whatever the gateway answers and whatever happens
    while it waits. *)
Inductive visited : Panel -> Prop :=
| visited_initial t committed :
    visited (initial t committed)
| visited_change st text :
    visited st -> inputDisabled st = false ->
    visited (setPrompt text st)
| visited_notify st t :
    visited st -> visited (toast t st)
| visited_context st committed :
    visited st -> visited (setFormConfig committed st)
| visited_submission st fetch env tSent tDone st' :
    visited st -> inputDisabled st = false -> interference env ->
    In st' (trace (issueAndWait env) fetch (submission tSent tDone st) st) ->
    visited st'.

(** The transcript has no placeholder. *)
Definition noPlaceholder (l : list ChatMessage) : Prop :=
  forall m, In m l -> Msg.isGenerating m = false.

(** Every placeholder of the transcript is its last element. *)
Definition placeholderLast (l : list ChatMessage) : Prop :=
  forall pre m post,
    l = pre ++ m :: post -> Msg.isGenerating m = true -> post = [].

(** The number of placeholders. *)
Definition placeholders (l : list ChatMessage) : nat :=
  List.length (filter (fun m => Msg.isGenerating m) l).

(** What holds of the transcript in every state: a placeholder is the
    last element, and there is none while the panel is idle. *)
Definition wellPlaced (st : Panel) : Prop :=
  placeholderLast (chatHistory st)
  /\ (isGenerating st = false -> noPlaceholder (chatHistory st)).

End WithConfig.

Arguments mkPanel {FormConfig}.
Arguments prompt {FormConfig} p.
Arguments chatHistory {FormConfig} p.
Arguments isGenerating {FormConfig} p.
Arguments statusText {FormConfig} p.
Arguments statusColor {FormConfig} p.
Arguments formConfig {FormConfig} p.
Arguments toasts {FormConfig} p.
Arguments requests {FormConfig} p.
Arguments console {FormConfig} p.
Arguments setPrompt {FormConfig} v st.
Arguments setChatHistory {FormConfig} f st.
Arguments setIsGenerating {FormConfig} v st.
Arguments setStatusText {FormConfig} v st.
Arguments setStatusColor {FormConfig} v st.
Arguments setFormConfig {FormConfig} v st.
Arguments toast {FormConfig} t st.
Arguments consoleError {FormConfig} l st.
Arguments issue {FormConfig} r st.
Arguments initial {FormConfig} t committed.
Arguments removePlaceholders {FormConfig} prev.
Arguments handleInitialFormGeneration {FormConfig} tDone promptText.
Arguments handleJsonEdit {FormConfig} formConfigValue tDone instruction.
Arguments onSendError {FormConfig} tDone error.
Arguments handleSendMessage {FormConfig} formConfigValue tSent tDone userText.
Arguments routed {FormConfig} committed userText.
Arguments submission {FormConfig} tSent tDone st.
Arguments inputDisabled {FormConfig} st.
Arguments sendDisabled {FormConfig} st.
Arguments handleKeyDown {FormConfig} key shiftKey tSent tDone st.
Arguments interference {FormConfig} f.
Arguments issueAndWait {FormConfig} env r st.
Arguments visited {FormConfig} p.
Arguments wellPlaced {FormConfig} st.
Arguments noPlaceholder {FormConfig} l.
Arguments placeholderLast {FormConfig} l.
Arguments placeholders {FormConfig} l.

End Chat.

(** ** Suspended handlers

    A handler called without [await] runs up to its first suspension
    point and hands control back; it goes on when the promise settles. *)

Module Suspended.

Section Program.
Variables St Req Resp : Type.
Variable issue : Req -> St -> St.

(** Where a handler stands when it hands control back: it has completed,
    or it waits for the promise of [r] with the continuation [k]. *)
Inductive paused (A : Type) : Type :=
| Finished (c : completion A)
| Waiting (r : Req) (k : Settled Resp -> prog St Req Resp A).

Arguments Finished {A} c.
Arguments Waiting {A} r k.

(** The synchronous part of a handler: up to the first await, the request
    of which is issued. *)
Fixpoint toAwait {A} (p : prog St Req Resp A) (st : St) : St * paused A :=
  match p with
  | Ret a => (st, Finished (Returned a))
  | Throw e => (st, Finished (Threw e))
  | Do f k => toAwait k (f st)
  | Await r k => (issue r st, Waiting r k)
  end.

(** The awaited promise settles with [s] and the handler runs to its end;
    [fetch] answers the calls it may still make. *)
Definition resumeWith {A} (fetch : Req -> Settled Resp) (w : paused A)
  (s : Settled Resp) (st : St) : St * completion A :=
  match w with
  | Finished c => (st, c)
  | Waiting _ k => exec issue fetch (k s) st
  end.

(** The same, the promise settling as the gateway [fetch] has it. *)
Definition resume {A} (fetch : Req -> Settled Resp) (w : paused A) (st : St)
  : St * completion A :=
  match w with
  | Finished c => (st, c)
  | Waiting r k => exec issue fetch (k (fetch r)) st
  end.

End Program.

Arguments Finished {St Req Resp A} c.
Arguments Waiting {St Req Resp A} r k.
Arguments toAwait {St Req Resp} issue {A} p st.
Arguments resumeWith {St Req Resp} issue {A} fetch w s st.
Arguments resume {St Req Resp} issue {A} fetch w st.

End Suspended.
Import Suspended.

(** ** Export utilities: copy and download of the committed configuration

    [handleDownloadJson] is the same text in the three variants,
    [handleCopyJson] in the two later ones. *)

Module Exports.

(** [new Blob([text], { type })] *)
Record Blob : Type := mkBlob {
  parts : jsstr;
  mime : jsstr
}.

(** A child of [document.body].  Nodes and object URLs are known by an
    identity, a number here; an anchor carries its [href], an object URL,
    and its [download] attribute. *)
Inductive Node : Type :=
| anchor (id : N) (href : N) (download : jsstr)
| element (id : N).

Definition nodeId (n : Node) : N :=
  match n with
  | anchor i _ _ => i
  | element i => i
  end.

(** The part of the browser the export utilities touch. *)
Record Desk : Type := mkDesk {
  (** the children of [document.body] *)
  bodyChildren : list Node;
  (** the object URLs that are live, with their blobs *)
  objectURLs : list (N * Blob);
  (** the files the browser was made to save: name and content *)
  downloads : list (jsstr * Blob);
  (** the texts handed to [navigator.clipboard.writeText] *)
  clipboardWrites : list jsstr;
  (** notifications emitted, oldest first *)
  toasts : list Toast
}.

(** An identity no listed one has. *)
Definition freshId (ids : list N) : N := N.succ (fold_right N.max 0 ids).

(** [URL.createObjectURL(blob)]: a new live URL. *)
Definition createObjectURL (blob : Blob) (d : Desk) : N * Desk :=
  let url := freshId (map fst (objectURLs d)) in
  (url,
   mkDesk (bodyChildren d) (objectURLs d ++ [(url, blob)]) (downloads d)
     (clipboardWrites d) (toasts d)).

(** [URL.revokeObjectURL(url)] *)
Definition revokeObjectURL (url : N) (d : Desk) : Desk :=
  mkDesk (bodyChildren d)
    (filter (fun e => negb (N.eqb (fst e) url)) (objectURLs d))
    (downloads d) (clipboardWrites d) (toasts d).

(** [document.createElement("a")]: a node of its own identity, outside
    the document. *)
Definition createElement (d : Desk) : N :=
  freshId (map nodeId (bodyChildren d)).

(** [document.body.appendChild(node)] *)
Definition appendChild (node : Node) (d : Desk) : Desk :=
  mkDesk (bodyChildren d ++ [node]) (objectURLs d) (downloads d)
    (clipboardWrites d) (toasts d).

(** [document.body.removeChild(node)]: [None] when the node is no child,
    where the DOM throws a NotFoundError. *)
Definition removeChild (id : N) (d : Desk) : option Desk :=
  if existsb (fun n => N.eqb (nodeId n) id) (bodyChildren d)
  then Some (mkDesk
               (filter (fun n => negb (N.eqb (nodeId n) id)) (bodyChildren d))
               (objectURLs d) (downloads d) (clipboardWrites d) (toasts d))
  else None.

Fixpoint lookupURL (url : N) (l : list (N * Blob)) : option Blob :=
  match l with
  | [] => None
  | (u, b) :: r => if N.eqb u url then Some b else lookupURL url r
  end.

(** [a.click()] on an anchor with a [download] attribute: the browser
    saves what its [href] resolves to under that name; a URL that is not
    live resolves to nothing. *)
Definition click (node : Node) (d : Desk) : Desk :=
  match node with
  | anchor _ href name =>
      match lookupURL href (objectURLs d) with
      | Some blob =>
          mkDesk (bodyChildren d) (objectURLs d) (downloads d ++ [(name, blob)])
            (clipboardWrites d) (toasts d)
      | None => d
      end
  | element _ => d
  end.

Definition toast (t : Toast) (d : Desk) : Desk :=
  mkDesk (bodyChildren d) (objectURLs d) (downloads d) (clipboardWrites d)
    (toasts d ++ [t]).

(** The text is handed to [navigator.clipboard.writeText]. *)
Definition writeText (text : jsstr) (d : Desk) : Desk :=
  mkDesk (bodyChildren d) (objectURLs d) (downloads d)
    (clipboardWrites d ++ [text]) (toasts d).

Section WithConfig.
Variable FormConfig : Type.
(** [JSON.stringify(_, null, 2)] on a configuration. *)
Variable stringify : FormConfig -> jsstr.

(** [navigator.clipboard.writeText(...).then(...).catch(...)].  The
    browser defines [navigator.clipboard] in a secure context only
    (https, localhost); elsewhere it is [undefined], and reading
    [writeText] off it throws a TypeError, an [Error] whose message is
    the browser's and stands here as its name.  That read is made outside
    the promise chain: nothing is serialised, written or notified, and
    [catch] does not see the error.  Where the clipboard is defined, the
    promise of the write is the one suspension point. *)
Definition handleCopyJson (clipboardDefined : bool)
  (formConfigValue : option FormConfig) : prog Desk jsstr unit unit :=
  match formConfigValue with
  | None => Ret tt
  | Some c =>
      if clipboardDefined then
        try_catch
          (_ <- await (stringify c) ;;
           perform (toast (mkToast (lit "JSON copied")
                             (lit "Form configuration copied to clipboard")
                             default)))
          (fun _ =>
             perform (toast (mkToast (lit "Error")
                               (lit "Failed to copy to clipboard")
                               destructive)))
      else Throw (ErrorObj (lit "TypeError"))
  end.

Definition handleDownloadJson (formConfigValue : option FormConfig)
  (d : Desk) : Desk * completion unit :=
  match formConfigValue with
  | None => (d, Returned tt)
  | Some c =>
      let jsonString := stringify c in
      let blob := mkBlob jsonString (lit "application/json") in
      let (url, d1) := createObjectURL blob d in
      let a := anchor (createElement d1) url (lit "form-config.json") in
      let d2 := appendChild a d1 in
      let d3 := click a d2 in
      match removeChild (nodeId a) d3 with
      | None => (d3, Threw (ErrorObj (lit "NotFoundError")))
      | Some d4 =>
          let d5 := revokeObjectURL url d4 in
          (toast (mkToast (lit "JSON downloaded")
                    (lit "Form configuration downloaded as JSON file")
                    default) d5,
           Returned tt)
      end
  end.

End WithConfig.

Arguments handleCopyJson {FormConfig} stringify clipboardDefined
  formConfigValue.
Arguments handleDownloadJson {FormConfig} stringify formConfigValue d.

End Exports.

(** ** What the panels render *)

Module ChatUI.

Section WithConfig.
Variable FormConfig : Type.

(** The placeholder of the text area. *)
Definition inputPlaceholder (st : Chat.Panel FormConfig) : jsstr :=
  match Chat.formConfig st with
  | Some _ => lit "Describe how you want to modify the form..."
  | None => lit "Describe the form you want to create..."
  end.

(** [message.role === "assistant" && message.jsonData]: the message is
    rendered with its JSON preview. *)
Definition showsJsonPreview (m : Msg.ChatMessage FormConfig) : bool :=
  match Msg.role m, Msg.jsonData m with
  | assistant, Some _ => true
  | _, _ => false
  end.

(** Every message of the transcript that carries a configuration is one
    rendered with its JSON preview, and no placeholder. *)
Definition payloadsShown (l : list (Msg.ChatMessage FormConfig)) : Prop :=
  forall m, In m l -> Msg.jsonData m <> None ->
            showsJsonPreview m = true /\ Msg.isGenerating m = false.

(** What was said: the messages of the transcript that are no
    placeholder, in their order.  A placeholder of the assistant is
    rendered as a "Generating" bubble, not as a text. *)
Fixpoint said (l : list (Msg.ChatMessage FormConfig))
  : list (Msg.ChatMessage FormConfig) :=
  match l with
  | [] => []
  | m :: r => if Msg.isGenerating m then said r else m :: said r
  end.

(** [handleKeyDown] calls [e.preventDefault()]. *)
Definition preventsDefault (key : jsstr) (shiftKey : bool) : bool :=
  jsstr_eqb key (lit "Enter") && negb shiftKey.

(** A key press in the text area, to the end of what it starts. *)
Definition keyDown
  (fetch : Request FormConfig -> Settled (Response FormConfig))
  (key : jsstr) (shiftKey : bool) (tSent tDone : N)
  (st : Chat.Panel FormConfig) : Chat.Panel FormConfig :=
  final Chat.issue fetch (Chat.handleKeyDown key shiftKey tSent tDone st) st.

End WithConfig.

Arguments inputPlaceholder {FormConfig} st.
Arguments showsJsonPreview {FormConfig} m.
Arguments payloadsShown {FormConfig} l.
Arguments said {FormConfig} l.
Arguments keyDown {FormConfig} fetch key shiftKey tSent tDone st.

End ChatUI.

Module GeneratorUI.

Section WithConfig.
Variable FormConfig : Type.

(** The "Generate Form" button is
    [disabled={isGenerating || !prompt.trim()}]. *)
Definition generateDisabled (st : Generator.Panel FormConfig) : bool :=
  Generator.isGenerating st || negb (truthy (trim (Generator.prompt st))).

(** The copy and download buttons are [disabled={!formConfig}]. *)
Definition exportDisabled (st : Generator.Panel FormConfig) : bool :=
  match Generator.formConfig st with
  | None => true
  | Some _ => false
  end.

End WithConfig.

Arguments generateDisabled {FormConfig} st.
Arguments exportDisabled {FormConfig} st.

End GeneratorUI.

Module EditorUI.

Section WithConfig.
Variable FormConfig : Type.
Local Abbreviation Panel := (Editor.Panel FormConfig).
Local Abbreviation Request := (Gateway.Request FormConfig).
Local Abbreviation Response := (Gateway.Response FormConfig).

(** The configuration the JSON pane shows:
    [showEditor ? editedConfig ?? generatedConfig : formConfig]. *)
Definition active (st : Panel) : option FormConfig :=
  if Editor.showEditor st then
    match Editor.editedConfig st with
    | Some c => Some c
    | None => Editor.generatedConfig st
    end
  else Editor.formConfig st.

(** The copy and download buttons are [disabled={!formConfig}]. *)
Definition exportDisabled (st : Panel) : bool :=
  match Editor.formConfig st with
  | None => true
  | Some _ => false
  end.

(** The "Generate Form" button is
    [disabled={isGenerating || !prompt.trim()}]. *)
Definition generateDisabled (st : Panel) : bool :=
  Editor.isGenerating st || negb (truthy (trim (Editor.prompt st))).

(** The edit chat's send button, and its Enter key:
    [handleChatSend(chatInput); setChatInput("")].  The handler is not
    awaited: the input is cleared when it hands control back, and it goes
    on when the gateway answers. *)
Definition sendChat (fetch : Request -> Settled Response) (st : Panel)
  : Panel :=
  let (st1, w) :=
    toAwait Editor.issue
      (Editor.handleChatSend (Editor.editedConfig st) (Editor.chatInput st))
      st in
  fst (resume Editor.issue fetch w (Editor.setChatInput [] st1)).

(** Two edits sent one after the other before the gateway has answered
    either: nothing disables the edit chat while a call is outstanding.
    Each handler closes over the staged configuration rendered when it is
    called; [firstAnswerFirst] tells in which order the two promises
    settle, with [s1] for the first edit and [s2] for the second. *)
Definition overlappingEdits (fetch : Request -> Settled Response)
  (text1 text2 : jsstr) (s1 s2 : Settled Response) (firstAnswerFirst : bool)
  (st : Panel) : Panel :=
  let (st1, w1) :=
    toAwait Editor.issue
      (Editor.handleChatSend (Editor.editedConfig st) text1) st in
  let (st2, w2) :=
    toAwait Editor.issue
      (Editor.handleChatSend (Editor.editedConfig st1) text2) st1 in
  if firstAnswerFirst then
    fst (resumeWith Editor.issue fetch w2 s2
           (fst (resumeWith Editor.issue fetch w1 s1 st2)))
  else
    fst (resumeWith Editor.issue fetch w1 s1
           (fst (resumeWith Editor.issue fetch w2 s2 st2))).

End WithConfig.

Arguments active {FormConfig} st.
Arguments exportDisabled {FormConfig} st.
Arguments sendChat {FormConfig} fetch st.
Arguments generateDisabled {FormConfig} st.
Arguments overlappingEdits {FormConfig} fetch text1 text2 s1 s2
  firstAnswerFirst st.

End EditorUI.

(** ** Sample configurations for concrete runs *)

Module Sample.

(** A small document type standing for [FormConfig]:
    [{ fields: [...] }]. *)
Record Json : Type := mkJson {
  fields : list jsstr
}.

(** [{ fields: ["name", "email"] }] *)
Definition survey : Json := mkJson [lit "name"; lit "email"].

(** [{ fields: ["name", "email", "phone"] }] *)
Definition surveyWithPhone : Json :=
  mkJson [lit "name"; lit "email"; lit "phone"].

(** A gateway that answers every request with the body [{ config }]. *)
Definition answering (c : option Json)
  : Request Json -> Settled (Response Json) :=
  fun _ => Fulfilled (mkResponse c).

(** A gateway whose every promise rejects with [e]. *)
Definition rejecting (e : Thrown) : Request Json -> Settled (Response Json) :=
  fun _ => Rejected e.

Definition askSurvey : jsstr := lit "Create a survey with name and email".

Definition askPhone : jsstr := lit "add a phone field".

(** The unified chat with [survey] committed and the instruction typed. *)
Definition chatCommitted : Chat.Panel Json :=
  Chat.setPrompt askPhone (Chat.initial 0 (Some survey)).

(** The unified chat waiting for the answer to its first prompt: the
    state after the placeholder is appended and the request issued. *)
Definition chatAwaiting : Chat.Panel Json :=
  Chat.mkPanel []
    [ Msg.mkMessage system
        (lit "Welcome to Forms Engine! Enter a prompt to generate a form.")
        0 false None;
      Msg.mkMessage user askSurvey 1 false None;
      Msg.mkMessage assistant (lit "Generating...") 1 true None ]
    true (lit "Generating form...") (lit "bg-yellow-500") None []
    [promptRequest askSurvey] [].

(** The intermediate variant after a first generation answered with
    [survey]: the configuration is staged, the shared context is empty. *)
Definition editorStaged : Editor.Panel Json :=
  Editor.generate (answering (Some survey))
    (Editor.setPrompt askSurvey (Editor.initial None)).

End Sample.

(** More concrete runs: the exports, the edit chat, the themes. *)

Module Scenario.

(** A gateway that answers a prompt with [survey] and an edit with
    [surveyWithPhone]. *)
Definition gateway (r : Request Sample.Json)
  : Settled (Response Sample.Json) :=
  match body r with
  | PromptPayload _ => Fulfilled (mkResponse (Some Sample.survey))
  | EditPayload _ _ => Fulfilled (mkResponse (Some Sample.surveyWithPhone))
  end.

(** A gateway that answers an edit with a body without [config]. *)
Definition forgetful (r : Request Sample.Json)
  : Settled (Response Sample.Json) :=
  match body r with
  | PromptPayload _ => Fulfilled (mkResponse (Some Sample.survey))
  | EditPayload _ _ => Fulfilled (mkResponse None)
  end.

(** The unified chat, nothing committed, with the first prompt typed. *)
Definition chatTyped : Chat.Panel Sample.Json :=
  Chat.setPrompt Sample.askSurvey (Chat.initial 0 None).

(** The same chat when its first prompt has been answered. *)
Definition chatAnswered : Chat.Panel Sample.Json :=
  final Chat.issue gateway (Chat.submission 1 2 chatTyped) chatTyped.

(** The generator and the intermediate variant with the prompt typed. *)
Definition generatorTyped : Generator.Panel Sample.Json :=
  Generator.setPrompt Sample.askSurvey (Generator.initial None).

Definition editorTyped : Editor.Panel Sample.Json :=
  Editor.setPrompt Sample.askSurvey (Editor.initial None).

(** The intermediate variant with the edit chat open and nothing staged:
    an edit of [editorStaged] was answered by [forgetful] with a body
    without [config], and a new instruction is typed. *)
Definition editorUnstaged : Editor.Panel Sample.Json :=
  Editor.setChatInput Sample.askPhone
    (EditorUI.sendChat forgetful
       (Editor.setChatInput Sample.askPhone Sample.editorStaged)).

(** A stand-in for [JSON.stringify]: the field names, each followed by a
    comma. *)
Definition show (c : Sample.Json) : jsstr :=
  fold_right (fun name rest => name ++ lit "," ++ rest) [] (Sample.fields c).

(** A page whose body has one element and one live object URL. *)
Definition desk : Exports.Desk :=
  Exports.mkDesk [Exports.element 7]
    [(3, Exports.mkBlob (lit "other") (lit "text/plain"))] [] [] [].

End Scenario.

(** * Properties *)

(** Case analysis on a run: the text is blank, or it is not and the call
    rejects, resolves without [config], or resolves with one. *)
Ltac settle fetch :=
  cbn;
  repeat match goal with
         | H : fetch _ = _ |- _ => rewrite H; cbn
         end.

Ltac by_cases text committed fetch :=
  destruct (trim text) as [|c0 rest] eqn:Etrim; simpl truthy; simpl negb;
  cbv iota;
  [ | destruct committed as [current|]; simpl Chat.routed in *;
      [ destruct (fetch (editRequest current text)) as [[[cfg|]]|err] eqn:?
      | destruct (fetch (promptRequest text)) as [[[cfg|]]|err] eqn:? ] ];
  unfold final; settle fetch.


(** Case analysis on a handler with one call of [req]. *)
Ltac by_call text fetch req :=
  destruct (trim text) as [|c0 rest] eqn:Etrim; simpl truthy; simpl negb;
  cbv iota;
  [ | destruct (fetch req) as [[[cfg|]]|err] eqn:? ];
  unfold final; settle fetch.

(** ** Strings *)

Lemma trimStart_nil_iff (s : jsstr) :
  trimStart s = [] <-> forallb isWhiteSpace s = true.
Proof.
  induction s as [|c r IH]; simpl.
  - tauto.
  - destruct (isWhiteSpace c); simpl.
    + exact IH.
    + split; discriminate.
Qed.

(** The trimmed text is empty exactly when every code unit is white
    space. *)
Lemma trim_nil_iff (s : jsstr) :
  trim s = [] <-> forallb isWhiteSpace s = true.
Proof.
  unfold trim, trimEnd. split.
  - intro H. apply (f_equal (@rev N)) in H. rewrite rev_involutive in H.
    simpl in H. apply trimStart_nil_iff in H.
    destruct (trimStart s) eqn:E.
    + now apply trimStart_nil_iff.
    + rewrite <- E in H. clear E.
      induction s as [|c r IH]; simpl in *; [reflexivity|].
      destruct (isWhiteSpace c) eqn:W; simpl.
      * now apply IH.
      * simpl in H. rewrite forallb_app in H. simpl in H.
        rewrite W in H. rewrite andb_false_r in H. discriminate.
  - intro H. apply trimStart_nil_iff in H. now rewrite H.
Qed.

Lemma truthy_trim_false (s : jsstr) :
  truthy (trim s) = false <-> trim s = [].
Proof. destruct (trim s); simpl; split; congruence. Qed.

(** ** The panels: routing, failures, completion *)

Section PanelFacts.
Variable FormConfig : Type.
Implicit Types (userText promptValue : jsstr) (committed : option FormConfig).
Implicit Types (fetch : Request FormConfig -> Settled (Response FormConfig)).

Lemma failed_caught (s : Settled (Response FormConfig)) :
  failed s = true <-> exists e, caught s = Some e.
Proof.
  destruct s as [[[c|]]|e]; simpl; split; intros H;
    try discriminate; try reflexivity; try (now eexists);
    destruct H as [e' H]; discriminate.
Qed.

(** The closure value [committed] decides the route, whatever the state
    the handler runs in and whatever the gateway answers. *)
Lemma handleSendMessage_requests
  (st : Chat.Panel FormConfig) committed fetch tSent tDone userText :
  Chat.requests
    (final Chat.issue fetch
       (Chat.handleSendMessage committed tSent tDone userText) st)
  = Chat.requests st
      ++ (if truthy (trim userText)
          then [Chat.routed committed userText] else []).
Proof.
  unfold Chat.handleSendMessage.
  by_cases userText committed fetch;
    rewrite ?app_nil_r; reflexivity.
Qed.

(** C1: a submission whose text is not blank issues exactly one request,
    chosen by the committed configuration alone.  When none is committed
    it is the generate request: a POST to /api/prompt whose body carries
    the prompt text.  When one is committed it is the edit request: a
    POST to /api/edit-json whose body carries the committed configuration
    and the instruction text.  A blank text is rejected before the route
    is taken and issues none. *)
Theorem handleSendMessage_routes_by_committed_config :
  forall (st : Chat.Panel FormConfig) fetch tSent tDone userText,
    Chat.requests
      (final Chat.issue fetch
         (Chat.handleSendMessage (Chat.formConfig st) tSent tDone userText) st)
    = Chat.requests st
        ++ (if truthy (trim userText)
            then [match Chat.formConfig st with
                  | None =>
                      mkRequest (lit "/api/prompt") (lit "POST")
                        (PromptPayload userText)
                        [(lit "Content-Type", lit "application/json")]
                  | Some current =>
                      mkRequest (lit "/api/edit-json") (lit "POST")
                        (EditPayload current userText)
                        [(lit "Content-Type", lit "application/json")]
                  end]
            else []).
Proof.
  intros st fetch tSent tDone userText.
  rewrite handleSendMessage_requests.
  destruct (Chat.formConfig st); reflexivity.
Qed.

(** *** The three outcomes of [handleSendMessage] *)

Lemma handleSendMessage_blank
  (st : Chat.Panel FormConfig) committed fetch tSent tDone userText :
  trim userText = [] ->
  exec Chat.issue fetch
    (Chat.handleSendMessage committed tSent tDone userText) st
  = (st, Returned tt).
Proof.
  intros E. unfold Chat.handleSendMessage. rewrite E. reflexivity.
Qed.

(** Only the generate route writes the status line before the call, and
    a failure leaves it as the route left it. *)
Lemma handleSendMessage_failure
  (st : Chat.Panel FormConfig) committed fetch tSent tDone userText e :
  trim userText <> [] ->
  caught (fetch (Chat.routed committed userText)) = Some e ->
  exec Chat.issue fetch
    (Chat.handleSendMessage committed tSent tDone userText) st
  = (Chat.mkPanel []
       (Chat.removePlaceholders
          ((Chat.chatHistory st
              ++ [Msg.mkMessage user userText tSent false None])
             ++ [Msg.mkMessage assistant (lit "Generating...") tSent true None])
          ++ [Msg.mkMessage assistant
                (lit "Error: " ++ messageOr (lit "Something went wrong") e)
                tDone false None])
       false
       (match committed with
        | None => lit "Generating form..."
        | Some _ => Chat.statusText st
        end)
       (match committed with
        | None => lit "bg-yellow-500"
        | Some _ => Chat.statusColor st
        end)
       (Chat.formConfig st)
       (Chat.toasts st
          ++ [mkToast (lit "Error")
                (messageOr (lit "Failed to process request") e) destructive])
       (Chat.requests st ++ [Chat.routed committed userText])
       (Chat.console st ++ [(lit "Error:", e)]),
     Returned tt).
Proof.
  intros Hne Hc. unfold Chat.handleSendMessage.
  by_cases userText committed fetch; try contradiction;
    simpl in Hc; try discriminate; injection Hc as <-; reflexivity.
Qed.

Lemma handleSendMessage_success
  (st : Chat.Panel FormConfig) committed fetch tSent tDone userText c :
  trim userText <> [] ->
  fetch (Chat.routed committed userText) = Fulfilled (mkResponse (Some c)) ->
  exec Chat.issue fetch
    (Chat.handleSendMessage committed tSent tDone userText) st
  = (Chat.mkPanel []
       (Chat.removePlaceholders
          ((Chat.chatHistory st
              ++ [Msg.mkMessage user userText tSent false None])
             ++ [Msg.mkMessage assistant (lit "Generating...") tSent true None])
          ++ [Msg.mkMessage assistant
                (match committed with
                 | None =>
                     0x2705 :: lit " Form generated successfully! Here's the JSON. You can now ask me to modify specific parts of the form."
                 | Some _ =>
                     0x2705 :: lit " Form updated successfully! Here's the updated JSON. You can continue making changes or test the form."
                 end)
                tDone false (Some c)])
       false
       (match committed with
        | None => lit "Form generated successfully"
        | Some _ => Chat.statusText st
        end)
       (match committed with
        | None => lit "bg-green-500"
        | Some _ => Chat.statusColor st
        end)
       (Some c)
       (Chat.toasts st
          ++ [mkToast (lit "Success")
                (match committed with
                 | None => lit "Form configuration generated successfully"
                 | Some _ => lit "Form configuration updated successfully"
                 end)
                default])
       (Chat.requests st ++ [Chat.routed committed userText])
       (Chat.console st),
     Returned tt).
Proof.
  intros Hne Hf. unfold Chat.handleSendMessage.
  by_cases userText committed fetch; try contradiction;
    try discriminate; injection Hf as <-; reflexivity.
Qed.

(** *** The outcomes of the generator's [handleGenerateForm] *)

Lemma generator_blank (st : Generator.Panel FormConfig) fetch promptValue :
  trim promptValue = [] ->
  exec Generator.issue fetch (Generator.handleGenerateForm promptValue) st
  = (Generator.toast
       (mkToast (lit "Error") (lit "Please enter a prompt") destructive) st,
     Returned tt).
Proof.
  intros E. unfold Generator.handleGenerateForm. rewrite E. reflexivity.
Qed.

Lemma generator_failure
  (st : Generator.Panel FormConfig) fetch promptValue e :
  trim promptValue <> [] ->
  caught (fetch (promptRequest promptValue)) = Some e ->
  exec Generator.issue fetch (Generator.handleGenerateForm promptValue) st
  = (Generator.mkPanel (Generator.prompt st) false
       (lit "Form generation failed") (lit "bg-red-500")
       (Generator.formConfig st)
       (Generator.toasts st
          ++ [mkToast (lit "Error")
                (messageOr (lit "Failed to generate form") e) destructive])
       (Generator.requests st ++ [promptRequest promptValue])
       (Generator.console st ++ [(lit "Error generating form:", e)]),
     Returned tt).
Proof.
  intros Hne Hc. unfold Generator.handleGenerateForm.
  by_call promptValue fetch (promptRequest (FormConfig:=FormConfig) promptValue);
    try contradiction; simpl in Hc; try discriminate;
    injection Hc as <-; reflexivity.
Qed.

Lemma generator_success
  (st : Generator.Panel FormConfig) fetch promptValue c :
  trim promptValue <> [] ->
  fetch (promptRequest promptValue) = Fulfilled (mkResponse (Some c)) ->
  exec Generator.issue fetch (Generator.handleGenerateForm promptValue) st
  = (Generator.mkPanel (Generator.prompt st) false
       (lit "Form generated successfully") (lit "bg-green-500") (Some c)
       (Generator.toasts st
          ++ [mkToast (lit "Success")
                (lit "Form configuration generated successfully") default])
       (Generator.requests st ++ [promptRequest promptValue])
       (Generator.console st),
     Returned tt).
Proof.
  intros Hne Hf. unfold Generator.handleGenerateForm.
  by_call promptValue fetch (promptRequest (FormConfig:=FormConfig) promptValue);
    try contradiction; try discriminate; injection Hf as <-; reflexivity.
Qed.

(** *** The outcomes of the intermediate variant's handlers *)

(** Generation there stages the configuration and never writes the shared
    context. *)
Lemma editor_generate_frames_context
  (st : Editor.Panel FormConfig) fetch promptValue :
  Editor.formConfig
    (final Editor.issue fetch (Editor.handleGenerateForm promptValue) st)
  = Editor.formConfig st
  /\ snd (exec Editor.issue fetch (Editor.handleGenerateForm promptValue) st)
     = Returned tt
  /\ Editor.isGenerating
       (final Editor.issue fetch (Editor.handleGenerateForm promptValue) st)
     = if truthy (trim promptValue) then false else Editor.isGenerating st.
Proof.
  unfold Editor.handleGenerateForm.
  by_call promptValue fetch (promptRequest (FormConfig:=FormConfig) promptValue);
    repeat split; reflexivity.
Qed.

Lemma editor_blank_generate
  (st : Editor.Panel FormConfig) fetch promptValue :
  trim promptValue = [] ->
  exec Editor.issue fetch (Editor.handleGenerateForm promptValue) st
  = (Editor.toast
       (mkToast (lit "Error") (lit "Please enter a prompt") destructive) st,
     Returned tt).
Proof.
  intros E. unfold Editor.handleGenerateForm. rewrite E. reflexivity.
Qed.

Lemma handleChatSend_without_config
  (st : Editor.Panel FormConfig) fetch userText :
  exec Editor.issue fetch (Editor.handleChatSend None userText) st
  = (st, Returned tt).
Proof. reflexivity. Qed.

Lemma handleChatSend_blank
  (st : Editor.Panel FormConfig) fetch edited userText :
  trim userText = [] ->
  exec Editor.issue fetch (Editor.handleChatSend edited userText) st
  = (st, Returned tt).
Proof.
  intros E. unfold Editor.handleChatSend. destruct edited; [|reflexivity].
  rewrite E. reflexivity.
Qed.

Lemma handleChatSend_rejected
  (st : Editor.Panel FormConfig) fetch edited userText e :
  trim userText <> [] ->
  fetch (editRequest edited userText) = Rejected e ->
  exec Editor.issue fetch (Editor.handleChatSend (Some edited) userText) st
  = (Editor.toast
       (mkToast (lit "Error") (lit "Failed to apply your edit.") destructive)
       (Editor.consoleError
          (lit "JSON" ++ [0x2011] ++ lit "edit error:", e)
          (Editor.issue (editRequest edited userText)
             (Editor.setChatHistory
                (fun h => h ++ [Editor.mkMessage user userText]) st))),
     Returned tt).
Proof.
  intros Hne Hf. unfold Editor.handleChatSend.
  destruct (trim userText) eqn:E; [contradiction|].
  cbn. rewrite Hf. reflexivity.
Qed.

Lemma handleChatSend_fulfilled
  (st : Editor.Panel FormConfig) fetch edited userText r :
  trim userText <> [] ->
  fetch (editRequest edited userText) = Fulfilled r ->
  exec Editor.issue fetch (Editor.handleChatSend (Some edited) userText) st
  = (Editor.setChatHistory
       (fun h =>
          h ++ [Editor.mkMessage assistant
                  (0x2705 :: lit " Done! Here" ++ [0x2019] ++
                   lit "s the updated JSON.")])
       (Editor.setEditedConfig (config r)
          (Editor.issue (editRequest edited userText)
             (Editor.setChatHistory
                (fun h => h ++ [Editor.mkMessage user userText]) st))),
     Returned tt).
Proof.
  intros Hne Hf. unfold Editor.handleChatSend.
  destruct (trim userText) eqn:E; [contradiction|].
  cbn. rewrite Hf. reflexivity.
Qed.

(** The edit chat never writes the shared context. *)
Lemma handleChatSend_frames_context
  (st : Editor.Panel FormConfig) fetch edited userText :
  Editor.formConfig
    (final Editor.issue fetch (Editor.handleChatSend edited userText) st)
  = Editor.formConfig st.
Proof.
  unfold final. destruct edited as [edited|];
    [|now rewrite handleChatSend_without_config].
  destruct (trim userText) eqn:E.
  - now rewrite handleChatSend_blank.
  - assert (Hne : trim userText <> []) by (rewrite E; discriminate).
    destruct (fetch (editRequest edited userText)) as [r|e] eqn:Hf.
    + now rewrite (handleChatSend_fulfilled st fetch _ _ _ Hne Hf).
    + now rewrite (handleChatSend_rejected st fetch _ _ _ Hne Hf).
Qed.

(** *** Transcripts *)

Lemma removePlaceholders_app (l l' : list (Msg.ChatMessage FormConfig)) :
  Chat.removePlaceholders (l ++ l')
  = Chat.removePlaceholders l ++ Chat.removePlaceholders l'.
Proof. apply filter_app. Qed.

Lemma noPlaceholder_removed (l : list (Msg.ChatMessage FormConfig)) :
  Chat.noPlaceholder (Chat.removePlaceholders l).
Proof.
  intros m Hin. apply filter_In in Hin. destruct Hin as [_ H].
  now destruct (Msg.isGenerating m).
Qed.

Lemma noPlaceholder_app (l : list (Msg.ChatMessage FormConfig)) m :
  Chat.noPlaceholder l -> Msg.isGenerating m = false ->
  Chat.noPlaceholder (l ++ [m]).
Proof.
  intros Hl Hm x Hin. apply in_app_or in Hin. destruct Hin as [Hin|[<-|[]]].
  - now apply Hl.
  - exact Hm.
Qed.

(** The transcript a settled submission leaves before its closing
    message: the placeholders are gone, the user's message stays. *)
Lemma removePlaceholders_submitted
  (l : list (Msg.ChatMessage FormConfig)) userText tSent :
  Chat.removePlaceholders
    ((l ++ [Msg.mkMessage user userText tSent false None])
       ++ [Msg.mkMessage assistant (lit "Generating...") tSent true None])
  = Chat.removePlaceholders l
      ++ [Msg.mkMessage user userText tSent false None].
Proof.
  rewrite !removePlaceholders_app. simpl. now rewrite app_nil_r.
Qed.

(** *** The claims *)

(** C2: a generate or edit call that fails (the promise rejects, or the
    body it resolves with has no [config]) leaves the committed
    configuration of the shared context as it was: in the unified chat
    ([handleSendMessage] and the two operations it calls), in the
    generator, and in the intermediate variant, whose handlers never
    write the context at all. *)
Theorem failed_call_keeps_committed_config :
  (forall (st : Chat.Panel FormConfig) fetch tSent tDone userText,
      failed (fetch (Chat.routed (Chat.formConfig st) userText)) = true ->
      Chat.formConfig
        (final Chat.issue fetch
           (Chat.handleSendMessage (Chat.formConfig st) tSent tDone userText)
           st)
      = Chat.formConfig st)
  /\ (forall (st : Chat.Panel FormConfig) fetch tDone promptText,
      failed (fetch (promptRequest promptText)) = true ->
      Chat.formConfig
        (final Chat.issue fetch
           (Chat.handleInitialFormGeneration tDone promptText) st)
      = Chat.formConfig st)
  /\ (forall (st : Chat.Panel FormConfig) fetch committed tDone instruction,
      failed (fetch (Chat.routed committed instruction)) = true ->
      Chat.formConfig
        (final Chat.issue fetch
           (Chat.handleJsonEdit committed tDone instruction) st)
      = Chat.formConfig st)
  /\ (forall (st : Generator.Panel FormConfig) fetch,
      failed (fetch (promptRequest (Generator.prompt st))) = true ->
      Generator.formConfig (Generator.generate fetch st)
      = Generator.formConfig st)
  /\ (forall (st : Editor.Panel FormConfig) fetch,
      Editor.formConfig (Editor.generate fetch st) = Editor.formConfig st)
  /\ (forall (st : Editor.Panel FormConfig) fetch userText,
      Editor.formConfig
        (final Editor.issue fetch
           (Editor.handleChatSend (Editor.editedConfig st) userText) st)
      = Editor.formConfig st).
Proof.
  repeat split.
  - intros st fetch tSent tDone userText Hf. unfold final.
    destruct (trim userText) eqn:E.
    + now rewrite handleSendMessage_blank.
    + apply failed_caught in Hf. destruct Hf as [e He].
      rewrite (handleSendMessage_failure st _ fetch tSent tDone _ e);
        [reflexivity | rewrite E; discriminate | exact He].
  - intros st fetch tDone promptText Hf.
    unfold final, Chat.handleInitialFormGeneration. cbn.
    destruct (fetch (promptRequest promptText)) as [[[c|]]|e];
      try discriminate; reflexivity.
  - intros st fetch committed tDone instruction Hf.
    unfold final, Chat.handleJsonEdit.
    destruct committed as [current|]; [|reflexivity]. cbn in *.
    destruct (fetch (editRequest current instruction)) as [[[c|]]|e];
      try discriminate; reflexivity.
  - intros st fetch Hf. unfold Generator.generate, final.
    destruct (trim (Generator.prompt st)) eqn:E.
    + now rewrite generator_blank.
    + apply failed_caught in Hf. destruct Hf as [e He].
      rewrite (generator_failure st fetch _ e);
        [reflexivity | rewrite E; discriminate | exact He].
  - intros st fetch. apply editor_generate_frames_context.
  - intros st fetch userText. apply handleChatSend_frames_context.
Qed.

(** C8: every submission completes normally, whatever the gateway
    answers, and leaves the generating flag cleared; a blank submission,
    which starts nothing, leaves the flag as it was. *)
Theorem submission_returns_to_idle :
  (forall (st : Chat.Panel FormConfig) committed fetch tSent tDone userText,
      snd (exec Chat.issue fetch
             (Chat.handleSendMessage committed tSent tDone userText) st)
      = Returned tt
      /\ Chat.isGenerating
           (final Chat.issue fetch
              (Chat.handleSendMessage committed tSent tDone userText) st)
         = if truthy (trim userText) then false else Chat.isGenerating st)
  /\ (forall (st : Generator.Panel FormConfig) fetch promptValue,
      snd (exec Generator.issue fetch
             (Generator.handleGenerateForm promptValue) st)
      = Returned tt
      /\ Generator.isGenerating
           (final Generator.issue fetch
              (Generator.handleGenerateForm promptValue) st)
         = if truthy (trim promptValue) then false
           else Generator.isGenerating st)
  /\ (forall (st : Editor.Panel FormConfig) fetch promptValue,
      snd (exec Editor.issue fetch
             (Editor.handleGenerateForm promptValue) st)
      = Returned tt
      /\ Editor.isGenerating
           (final Editor.issue fetch
              (Editor.handleGenerateForm promptValue) st)
         = if truthy (trim promptValue) then false
           else Editor.isGenerating st).
Proof.
  split; [|split].
  - intros st committed fetch tSent tDone userText.
    unfold Chat.handleSendMessage.
    by_cases userText committed fetch; split; reflexivity.
  - intros st fetch promptValue. unfold Generator.handleGenerateForm.
    by_call promptValue fetch
      (promptRequest (FormConfig:=FormConfig) promptValue);
      split; reflexivity.
  - intros st fetch promptValue.
    destruct (editor_generate_frames_context st fetch promptValue)
      as (_ & H1 & H2).
    now split.
Qed.

(** C3, as the code has it: in the unified chat a successful edit call
    writes the returned configuration into the shared context, whole, in
    place of the prior one.  In the intermediate variant a successful
    edit call replaces the staged [editedConfig], whole, and leaves the
    shared context alone; "Apply Changes to Form" then writes the staged
    configuration into the context, whole. *)
Theorem successful_edit_replaces_configuration :
  forall (current returned : FormConfig) fetch userText,
    trim userText <> [] ->
    fetch (editRequest current userText)
    = Fulfilled (mkResponse (Some returned)) ->
    (forall (st : Chat.Panel FormConfig) tSent tDone,
        Chat.formConfig st = Some current ->
        Chat.formConfig
          (final Chat.issue fetch
             (Chat.handleSendMessage (Chat.formConfig st) tSent tDone userText)
             st)
        = Some returned)
    /\ (forall (st : Chat.Panel FormConfig) tDone,
        Chat.formConfig
          (final Chat.issue fetch
             (Chat.handleJsonEdit (Some current) tDone userText) st)
        = Some returned)
    /\ (forall (st : Editor.Panel FormConfig),
        Editor.editedConfig st = Some current ->
        let st' :=
          final Editor.issue fetch
            (Editor.handleChatSend (Editor.editedConfig st) userText) st in
        Editor.editedConfig st' = Some returned
        /\ Editor.formConfig st' = Editor.formConfig st
        /\ Editor.formConfig (Editor.applyChanges st') = Some returned).
Proof.
  intros current returned fetch userText Hne Hf.
  split; [|split].
  - intros st tSent tDone Hc. unfold final. rewrite Hc.
    now rewrite (handleSendMessage_success st (Some current) fetch tSent
                   tDone _ returned Hne Hf).
  - intros st tDone. unfold final, Chat.handleJsonEdit. cbn.
    rewrite Hf. reflexivity.
  - intros st Hst st'.
    assert (Hrun : st'
      = Editor.setChatHistory
          (fun h =>
             h ++ [Editor.mkMessage assistant
                     (0x2705 :: lit " Done! Here" ++ [0x2019] ++
                      lit "s the updated JSON.")])
          (Editor.setEditedConfig (Some returned)
             (Editor.issue (editRequest current userText)
                (Editor.setChatHistory
                   (fun h => h ++ [Editor.mkMessage user userText]) st)))).
    { subst st'. unfold final. rewrite Hst.
      now rewrite (handleChatSend_fulfilled st fetch _ _ _ Hne Hf). }
    rewrite Hrun. split; [reflexivity|]. split; reflexivity.
Qed.

(** C5: a submission whose trimmed text is empty starts nothing: no
    message is appended, no request is issued, nothing is notified.
    [handleSendMessage] returns with the state as it was; so does a key
    press in the unified chat, whose send button is disabled for such a
    prompt.  The send action of the edit chat leaves the transcript, the
    requests and the notifications as they were; all it changes is the
    input, which it clears.  The "Generate Form" button of the two older
    variants, the one caller of [handleGenerateForm], is disabled for
    such a prompt: it delivers no submission. *)
Theorem blank_submission_starts_nothing :
  forall userText,
    trim userText = [] ->
    (forall (st : Chat.Panel FormConfig) committed fetch tSent tDone,
        exec Chat.issue fetch
          (Chat.handleSendMessage committed tSent tDone userText) st
        = (st, Returned tt))
    /\ (forall (st : Chat.Panel FormConfig) fetch key shiftKey tSent tDone,
        Chat.prompt st = userText ->
        Chat.sendDisabled st = true
        /\ ChatUI.keyDown fetch key shiftKey tSent tDone st = st)
    /\ (forall (st : Editor.Panel FormConfig) fetch,
        Editor.chatInput st = userText ->
        let st' := EditorUI.sendChat fetch st in
        st' = Editor.setChatInput [] st
        /\ Editor.chatHistory st' = Editor.chatHistory st
        /\ Editor.requests st' = Editor.requests st
        /\ Editor.toasts st' = Editor.toasts st)
    /\ (forall (st : Generator.Panel FormConfig),
        Generator.prompt st = userText ->
        GeneratorUI.generateDisabled st = true)
    /\ (forall (st : Editor.Panel FormConfig),
        Editor.prompt st = userText ->
        EditorUI.generateDisabled st = true).
Proof.
  intros userText E. split; [|split; [|split; [|split]]].
  - intros. unfold Chat.handleSendMessage. rewrite E. reflexivity.
  - intros st fetch key shiftKey tSent tDone Hp. split.
    + unfold Chat.sendDisabled. rewrite Hp, E. apply orb_true_r.
    + unfold ChatUI.keyDown, Chat.handleKeyDown, Chat.submission.
      destruct (jsstr_eqb key (lit "Enter") && negb shiftKey);
        [|reflexivity].
      unfold final, Chat.handleSendMessage. rewrite Hp, E. reflexivity.
  - intros st fetch Hi st'.
    assert (Hsend : st' = Editor.setChatInput [] st).
    { subst st'. unfold EditorUI.sendChat, Editor.handleChatSend.
      destruct (Editor.editedConfig st) as [staged|]; [|reflexivity].
      rewrite Hi, E. reflexivity. }
    rewrite Hsend. repeat split.
  - intros st Hp. unfold GeneratorUI.generateDisabled.
    rewrite Hp, E. apply orb_true_r.
  - intros st Hp. unfold EditorUI.generateDisabled.
    rewrite Hp, E. apply orb_true_r.
Qed.

(** C6, as the code has it: the edit operation without a configuration
    sends no request.  In the unified chat [handleJsonEdit] throws
    "No form configuration to edit" before any call.
    [handleSendMessage], its one caller, reaches it only with a
    committed configuration: without one a submission issues the
    generate request, and the one error it can log is the failure of
    that call.  In the intermediate variant [handleChatSend] returns at
    once, and the send action of the edit chat only drops the typed
    text: no request, no message, no notification, no failure. *)
Theorem edit_without_configuration_sends_nothing :
  (forall (st : Chat.Panel FormConfig) fetch tDone instruction,
      exec Chat.issue fetch (Chat.handleJsonEdit None tDone instruction) st
      = (st, Threw (ErrorObj (lit "No form configuration to edit"))))
  /\ (forall (st : Chat.Panel FormConfig) fetch tSent tDone userText,
      let generate :=
        mkRequest (lit "/api/prompt") (lit "POST") (PromptPayload userText)
          [(lit "Content-Type", lit "application/json")] in
      let st' :=
        final Chat.issue fetch
          (Chat.handleSendMessage None tSent tDone userText) st in
      Chat.requests st'
      = Chat.requests st
          ++ (if truthy (trim userText) then [generate] else [])
      /\ Chat.console st'
         = Chat.console st
             ++ (if truthy (trim userText)
                 then match caught (fetch generate) with
                      | Some e => [(lit "Error:", e)]
                      | None => []
                      end
                 else []))
  /\ (forall (st : Editor.Panel FormConfig) fetch userText,
      exec Editor.issue fetch (Editor.handleChatSend None userText) st
      = (st, Returned tt))
  /\ (forall (st : Editor.Panel FormConfig) fetch,
      Editor.editedConfig st = None ->
      let st' := EditorUI.sendChat fetch st in
      st' = Editor.setChatInput [] st
      /\ Editor.requests st' = Editor.requests st
      /\ Editor.chatHistory st' = Editor.chatHistory st
      /\ Editor.toasts st' = Editor.toasts st).
Proof.
  split; [|split; [|split]].
  - intros. reflexivity.
  - intros st fetch tSent tDone userText. cbv zeta.
    change (mkRequest (lit "/api/prompt") (lit "POST")
              (PromptPayload userText)
              [(lit "Content-Type", lit "application/json")])
      with (promptRequest (FormConfig:=FormConfig) userText).
    unfold Chat.handleSendMessage.
    destruct (trim userText) as [|c0 rest] eqn:Etrim; simpl truthy;
      simpl negb; cbv iota;
      [ | destruct (fetch (promptRequest userText)) as [[[cfg|]]|err] eqn:? ];
      unfold final; settle fetch; rewrite ?app_nil_r; split; reflexivity.
  - intros. reflexivity.
  - intros st fetch Hnone st'.
    assert (Hsend : st' = Editor.setChatInput [] st).
    { subst st'. unfold EditorUI.sendChat.
      rewrite Hnone. reflexivity. }
    rewrite Hsend. repeat split.
Qed.

(** C7, as the code has it: after a failed call of a non-blank
    submission the transcript has no placeholder and ends with the
    user's message and an assistant message whose text is "Error: "
    followed by the failure's message, or by "Something went wrong" when
    the failure is no [Error]; the notification carries the failure's
    message, or "Failed to process request" when it is no [Error].  So
    for a failure that is an [Error] the two carry the same description,
    the chat text behind its "Error: " prefix. *)
Theorem failed_call_is_reported :
  forall (st : Chat.Panel FormConfig) committed fetch tSent tDone userText e,
    trim userText <> [] ->
    caught (fetch (Chat.routed committed userText)) = Some e ->
    let st' :=
      final Chat.issue fetch
        (Chat.handleSendMessage committed tSent tDone userText) st in
    Chat.chatHistory st'
    = Chat.removePlaceholders (Chat.chatHistory st)
        ++ [ Msg.mkMessage user userText tSent false None;
             Msg.mkMessage assistant
               (lit "Error: " ++ messageOr (lit "Something went wrong") e)
               tDone false None ]
    /\ Chat.noPlaceholder (Chat.chatHistory st')
    /\ Chat.toasts st'
       = Chat.toasts st
           ++ [mkToast (lit "Error")
                 (messageOr (lit "Failed to process request") e) destructive]
    /\ (forall m, e = ErrorObj m ->
        messageOr (lit "Something went wrong") e = m
        /\ messageOr (lit "Failed to process request") e = m).
Proof.
  intros st committed fetch tSent tDone userText e Hne Hc st'.
  assert (Hh : Chat.chatHistory st'
    = Chat.removePlaceholders (Chat.chatHistory st)
        ++ [ Msg.mkMessage user userText tSent false None;
             Msg.mkMessage assistant
               (lit "Error: " ++ messageOr (lit "Something went wrong") e)
               tDone false None ]).
  { subst st'. unfold final.
    rewrite (handleSendMessage_failure st committed fetch tSent tDone _ e
               Hne Hc).
    cbn [fst Chat.chatHistory].
    rewrite removePlaceholders_submitted, <- app_assoc. reflexivity. }
  repeat split.
  - exact Hh.
  - rewrite Hh.
    change [Msg.mkMessage user userText tSent false None;
            Msg.mkMessage assistant
              (lit "Error: " ++ messageOr (lit "Something went wrong") e)
              tDone false None]
      with ([Msg.mkMessage user userText tSent false (@None FormConfig)]
              ++ [Msg.mkMessage assistant
                    (lit "Error: "
                       ++ messageOr (lit "Something went wrong") e)
                    tDone false None]).
    rewrite app_assoc.
    apply noPlaceholder_app; [|reflexivity].
    apply noPlaceholder_app; [|reflexivity].
    apply noPlaceholder_removed.
  - subst st'. unfold final.
    now rewrite (handleSendMessage_failure st committed fetch tSent tDone _ e
                   Hne Hc).
  - now subst e.
  - now subst e.
Qed.

(** *** The placeholder *)

Lemma placeholderLast_of_none (l : list (Msg.ChatMessage FormConfig)) :
  Chat.noPlaceholder l -> Chat.placeholderLast l.
Proof.
  intros Hl pre m post -> Hm.
  assert (Msg.isGenerating m = false) by (apply Hl, in_elt).
  congruence.
Qed.

Lemma placeholderLast_snoc (l : list (Msg.ChatMessage FormConfig)) p :
  Chat.noPlaceholder l -> Chat.placeholderLast (l ++ [p]).
Proof.
  intros Hl pre m post E Hm.
  destruct post as [|x post']; [reflexivity|exfalso].
  assert (Hin : In m l).
  { destruct (exists_last (l:=x :: post')) as (post0 & y & Ey);
      [discriminate|].
    rewrite Ey in E. change (m :: post0 ++ [y]) with ([m] ++ post0 ++ [y]) in E.
    rewrite 2 app_assoc in E. apply app_inj_tail in E. destruct E as [-> _].
    rewrite <- app_assoc. apply in_elt. }
  apply Hl in Hin. congruence.
Qed.

(** A transcript whose placeholders are all last has at most one. *)
Lemma placeholderLast_at_most_one (l : list (Msg.ChatMessage FormConfig)) :
  Chat.placeholderLast l -> (Chat.placeholders l <= 1)%nat.
Proof.
  unfold Chat.placeholders. induction l as [|a r IH]; intros Hl; simpl.
  - lia.
  - destruct (Msg.isGenerating a) eqn:Ea.
    + rewrite (Hl [] a r eq_refl Ea). simpl. lia.
    + apply IH. intros pre m post -> Hm.
      exact (Hl (a :: pre) m post eq_refl Hm).
Qed.

Lemma interference_chatHistory env :
  Chat.interference env ->
  forall st : Chat.Panel FormConfig,
    Chat.chatHistory (env st) = Chat.chatHistory st.
Proof.
  intros H.
  induction H as [|t env _ IH|c env _ IH]; intros st; cbn; auto.
Qed.

Lemma interference_isGenerating env :
  Chat.interference env ->
  forall st : Chat.Panel FormConfig,
    Chat.isGenerating (env st) = Chat.isGenerating st.
Proof.
  intros H.
  induction H as [|t env _ IH|c env _ IH]; intros st; cbn; auto.
Qed.

Lemma snoc_neq (l : list (Msg.ChatMessage FormConfig)) m : l <> l ++ [m].
Proof.
  intros E. apply (f_equal (@List.length _)) in E.
  rewrite length_app in E. simpl in E. lia.
Qed.

Lemma removePlaceholders_snoc_neq (l : list (Msg.ChatMessage FormConfig)) m :
  Chat.removePlaceholders l <> l ++ [m].
Proof.
  intros E. apply (f_equal (@List.length _)) in E.
  rewrite length_app in E. simpl in E.
  pose proof (filter_length_le (fun msg => negb (Msg.isGenerating msg)) l).
  unfold Chat.removePlaceholders in E. lia.
Qed.

(** The transcript of the goal has no placeholder: it is the idle
    transcript [Hno] speaks of, or a filtered one, extended by messages
    that are not placeholders. *)
Ltac no_placeholder Hno :=
  repeat (apply noPlaceholder_app; [|reflexivity]);
  first [ exact Hno | apply noPlaceholder_removed ].

(** Reads the transcript and the flag of a state of the trace. *)
Ltac read_state Henv :=
  unfold Chat.issueAndWait; cbn;
  repeat (rewrite ?(interference_chatHistory _ Henv),
                  ?(interference_isGenerating _ Henv); cbn).

Ltac well_placed Henv Hno :=
  unfold Chat.wellPlaced; read_state Henv;
  split;
  [ first [ apply placeholderLast_of_none; no_placeholder Hno
          | apply placeholderLast_snoc; no_placeholder Hno ]
  | first [ discriminate | intros _; no_placeholder Hno ] ].

(** Running a submission of either route from a transcript without
    placeholder, every state passed through is well placed. *)
Lemma handleSendMessage_trace_wellPlaced
  (st : Chat.Panel FormConfig) committed fetch env tSent tDone userText :
  Chat.interference env ->
  Chat.noPlaceholder (Chat.chatHistory st) ->
  forall st',
    In st' (trace (Chat.issueAndWait env) fetch
              (Chat.handleSendMessage committed tSent tDone userText) st) ->
    Chat.wellPlaced st'.
Proof.
  intros Henv Hno st'. unfold Chat.handleSendMessage.
  destruct (trim userText) as [|c0 rest] eqn:Etrim; simpl truthy; simpl negb;
    cbv iota;
    [ | destruct committed as [current|];
        [ destruct (fetch (editRequest current userText))
            as [[[cfg|]]|err] eqn:?
        | destruct (fetch (promptRequest userText))
            as [[[cfg|]]|err] eqn:? ] ];
    settle fetch; intros Hin;
    repeat (destruct Hin as [<-|Hin]; [well_placed Henv Hno|]);
    destruct Hin.
Qed.

(** Along a submission a message is appended only to a transcript
    without placeholder. *)
Lemma handleSendMessage_appends_after_removal
  (st : Chat.Panel FormConfig) committed fetch env tSent tDone userText :
  Chat.interference env ->
  Chat.noPlaceholder (Chat.chatHistory st) ->
  forall s s',
    In (s, s')
      (steps (trace (Chat.issueAndWait env) fetch
                (Chat.handleSendMessage committed tSent tDone userText) st)) ->
    forall m,
      Chat.chatHistory s' = Chat.chatHistory s ++ [m] ->
      Chat.noPlaceholder (Chat.chatHistory s).
Proof.
  intros Henv Hno s s'. unfold Chat.handleSendMessage.
  destruct (trim userText) as [|c0 rest] eqn:Etrim; simpl truthy; simpl negb;
    cbv iota;
    [ | destruct committed as [current|];
        [ destruct (fetch (editRequest current userText))
            as [[[cfg|]]|err] eqn:?
        | destruct (fetch (promptRequest userText))
            as [[[cfg|]]|err] eqn:? ] ];
    settle fetch; intros Hin;
    repeat (destruct Hin as [Hin|Hin];
            [ injection Hin as <- <-; read_state Henv; intros m Happ;
              first [ no_placeholder Hno
                    | exfalso; revert Happ; apply snoc_neq
                    | exfalso; revert Happ; apply removePlaceholders_snoc_neq ]
            | ]);
    destruct Hin.
Qed.

Lemma visited_wellPlaced (st : Chat.Panel FormConfig) :
  Chat.visited st -> Chat.wellPlaced st.
Proof.
  induction 1 as [t committed|st text _ IH _|st t _ IH|st committed _ IH
                 |st fetch env tSent tDone st' _ IH Hidle Henv Hin].
  - unfold Chat.wellPlaced. cbn.
    assert (Hno : Chat.noPlaceholder
                    [Msg.mkMessage system
                       (lit "Welcome to Forms Engine! Enter a prompt to generate a form.")
                       t false (@None FormConfig)]).
    { intros m [<-|[]]. reflexivity. }
    split; [now apply placeholderLast_of_none | intros _; exact Hno].
  - exact IH.
  - exact IH.
  - exact IH.
  - destruct IH as [_ IH].
    apply (handleSendMessage_trace_wellPlaced st (Chat.formConfig st) fetch
             env tSent tDone (Chat.prompt st) Henv (IH Hidle) st' Hin).
Qed.

(** C4: in every state the chat passes through, the transcript holds at
    most one placeholder, a placeholder is the transcript's last element,
    and there is none while the panel is idle; and along a submission a
    message, the user's, the placeholder or the closing one, is appended
    only to a transcript from which the placeholder is gone. *)
Theorem placeholder_unique_last_removed_first :
  forall st : Chat.Panel FormConfig,
    Chat.visited st ->
    (Chat.placeholders (Chat.chatHistory st) <= 1)%nat
    /\ Chat.placeholderLast (Chat.chatHistory st)
    /\ (Chat.isGenerating st = false ->
        Chat.noPlaceholder (Chat.chatHistory st))
    /\ (Chat.inputDisabled st = false ->
        forall fetch env tSent tDone s s' m,
          Chat.interference env ->
          In (s, s')
            (steps (trace (Chat.issueAndWait env) fetch
                      (Chat.submission tSent tDone st) st)) ->
          Chat.chatHistory s' = Chat.chatHistory s ++ [m] ->
          Chat.noPlaceholder (Chat.chatHistory s)).
Proof.
  intros st Hv. destruct (visited_wellPlaced st Hv) as [Hlast Hidle].
  split; [now apply placeholderLast_at_most_one|].
  split; [exact Hlast|]. split; [exact Hidle|].
  intros Hen fetch env tSent tDone s s' m Henv Hin Happ.
  exact (handleSendMessage_appends_after_removal st (Chat.formConfig st)
           fetch env tSent tDone (Chat.prompt st) Henv (Hidle Hen) s s' Hin m
           Happ).
Qed.

End PanelFacts.

(** ** Concrete runs *)

(** The two scenarios of the specification.  "Create a survey with name
    and email" with nothing committed calls generate with that prompt;
    "add a phone field" with [survey] committed calls edit with [survey]
    attached. *)
Lemma routes_phone_instruction_to_edit :
  map (fun r => (url r, body r))
    (Chat.requests
       (final Chat.issue (Sample.answering (Some Sample.survey))
          (Chat.handleSendMessage (Chat.formConfig Scenario.chatTyped) 1 2
             Sample.askSurvey)
          Scenario.chatTyped))
  = [(lit "/api/prompt",
      PromptPayload (lit "Create a survey with name and email"))]
  /\ map (fun r => (url r, body r))
       (Chat.requests
          (final Chat.issue (Sample.answering (Some Sample.surveyWithPhone))
             (Chat.handleSendMessage (Chat.formConfig Sample.chatCommitted)
                1 2 Sample.askPhone)
             Sample.chatCommitted))
     = [(lit "/api/edit-json",
         EditPayload (Sample.mkJson [lit "name"; lit "email"])
           (lit "add a phone field"))].
Proof.
  split.
  - rewrite (handleSendMessage_routes_by_committed_config Sample.Json
               Scenario.chatTyped (Sample.answering (Some Sample.survey)) 1 2
               Sample.askSurvey).
    reflexivity.
  - rewrite (handleSendMessage_routes_by_committed_config Sample.Json
               Sample.chatCommitted
               (Sample.answering (Some Sample.surveyWithPhone)) 1 2
               Sample.askPhone).
    reflexivity.
Defined.

(** A rejected generate call leaves the empty context empty. *)
Lemma rejected_generation_keeps_context :
  Chat.formConfig
    (final Chat.issue (Sample.rejecting (ErrorObj (lit "500: Server Error")))
       (Chat.handleSendMessage (Chat.formConfig (Chat.initial 0 None)) 1 2
          Sample.askSurvey)
       (Chat.initial 0 None))
  = None.
Proof.
  apply (proj1 (failed_call_keeps_committed_config Sample.Json)
           (Chat.initial 0 None)
           (Sample.rejecting (ErrorObj (lit "500: Server Error"))) 1 2
           Sample.askSurvey).
  reflexivity.
Defined.

(** A successful edit replaces [survey] by the returned configuration. *)
Lemma edit_commits_returned_configuration :
  Chat.formConfig
    (final Chat.issue (Sample.answering (Some Sample.surveyWithPhone))
       (Chat.handleSendMessage (Chat.formConfig Sample.chatCommitted) 1 2
          Sample.askPhone)
       Sample.chatCommitted)
  = Some Sample.surveyWithPhone.
Proof.
  refine (proj1 (successful_edit_replaces_configuration Sample.Json
                   Sample.survey Sample.surveyWithPhone
                   (Sample.answering (Some Sample.surveyWithPhone))
                   Sample.askPhone _ _)
            Sample.chatCommitted 1 2 _).
  - vm_compute. discriminate.
  - reflexivity.
  - reflexivity.
Defined.

(** In the intermediate variant the same successful edit leaves the
    shared context empty: the returned configuration is only staged. *)
Lemma staged_edit_does_not_commit :
  let st' :=
    final Editor.issue (Sample.answering (Some Sample.surveyWithPhone))
      (Editor.handleChatSend (Editor.editedConfig Sample.editorStaged)
         Sample.askPhone)
      Sample.editorStaged in
  Editor.editedConfig Sample.editorStaged = Some Sample.survey
  /\ Editor.editedConfig st' = Some Sample.surveyWithPhone
  /\ Editor.formConfig st' = None
  /\ Editor.formConfig st' <> Some Sample.surveyWithPhone.
Proof.
  repeat split; try reflexivity. vm_compute. discriminate.
Qed.

(** The chat waiting for its first answer is a state the machine passes
    through, and its transcript ends with its one placeholder. *)
Lemma awaiting_has_one_placeholder_last :
  Chat.placeholders (Chat.chatHistory Sample.chatAwaiting) = 1%nat
  /\ (Chat.placeholders (Chat.chatHistory Sample.chatAwaiting) <= 1)%nat
  /\ Chat.placeholderLast (Chat.chatHistory Sample.chatAwaiting).
Proof.
  split; [reflexivity|].
  assert (Hv : Chat.visited Sample.chatAwaiting).
  { apply Chat.visited_submission
      with (st := Chat.setPrompt Sample.askSurvey (Chat.initial 0 None))
           (fetch := Sample.rejecting OtherValue) (env := fun st => st)
           (tSent := 1) (tDone := 2).
    - apply Chat.visited_change; [apply Chat.visited_initial | reflexivity].
    - reflexivity.
    - apply Chat.interference_none.
    - vm_compute. do 7 right. left. reflexivity. }
  destruct (placeholder_unique_last_removed_first Sample.Json
              Sample.chatAwaiting Hv)
    as (H1 & H2 & _).
  split; assumption.
Defined.

(** A prompt of three spaces is blank: the chat ignores it, and the
    edit chat with [survey] staged only clears its input. *)
Lemma spaces_are_ignored_by_the_chat :
  exec Chat.issue (Sample.answering (Some Sample.survey))
    (Chat.handleSendMessage None 1 2 (lit "   ")) (Chat.initial 0 None)
  = (Chat.initial 0 None, Returned tt)
  /\ (let st := Editor.setChatInput (lit "   ") Sample.editorStaged in
      let st' := EditorUI.sendChat Scenario.gateway st in
      Editor.chatHistory st' = Editor.chatHistory st
      /\ Editor.requests st' = Editor.requests st
      /\ Editor.toasts st' = Editor.toasts st
      /\ Editor.chatInput st' = []).
Proof.
  destruct (blank_submission_starts_nothing Sample.Json (lit "   ") eq_refl)
    as (Hchat & _ & Hedit & _).
  split; [apply Hchat|].
  destruct (Hedit (Editor.setChatInput (lit "   ") Sample.editorStaged)
              Scenario.gateway eq_refl)
    as (Hst & Hh & Hr & Ht).
  cbv zeta. split; [exact Hh|]. split; [exact Hr|]. split; [exact Ht|].
  rewrite Hst. reflexivity.
Defined.

(** The instruction typed into the open edit chat with nothing staged is
    dropped by the send action. *)
Lemma unstaged_instruction_is_dropped :
  Editor.editedConfig Scenario.editorUnstaged = None
  /\ EditorUI.sendChat Scenario.gateway Scenario.editorUnstaged
     = Editor.setChatInput [] Scenario.editorUnstaged.
Proof.
  split; [reflexivity|].
  apply (proj2 (proj2 (proj2 (edit_without_configuration_sends_nothing
                                Sample.Json)))
           Scenario.editorUnstaged Scenario.gateway).
  reflexivity.
Defined.

(** The edit chat is open, nothing is staged, an instruction is typed and
    sent: the handler returns normally, and no failure is reported in the
    transcript or by a notification. *)
Lemma edit_chat_without_configuration_is_silent :
  let st := Scenario.editorUnstaged in
  let st' := EditorUI.sendChat Scenario.gateway st in
  Editor.showEditor st = true
  /\ Editor.editedConfig st = None
  /\ Editor.chatInput st = lit "add a phone field"
  /\ snd (exec Editor.issue Scenario.gateway
            (Editor.handleChatSend (Editor.editedConfig st)
               (Editor.chatInput st)) st)
     = Returned tt
  /\ Editor.toasts st' = Editor.toasts st
  /\ Editor.chatHistory st' = Editor.chatHistory st
  /\ Editor.requests st' = Editor.requests st.
Proof. repeat split. Qed.

(** A rejection with an [Error] is reported with its message in both
    places. *)
Lemma network_error_is_reported :
  let st' :=
    final Chat.issue (Sample.rejecting (ErrorObj (lit "Failed to fetch")))
      (Chat.handleSendMessage None 1 2 Sample.askSurvey) (Chat.initial 0 None)
  in
  map Msg.content (Chat.chatHistory st')
  = [ lit "Welcome to Forms Engine! Enter a prompt to generate a form.";
      Sample.askSurvey;
      lit "Error: Failed to fetch" ]
  /\ map description (Chat.toasts st') = [lit "Failed to fetch"].
Proof.
  destruct (failed_call_is_reported Sample.Json (Chat.initial 0 None) None
              (Sample.rejecting (ErrorObj (lit "Failed to fetch"))) 1 2
              Sample.askSurvey (ErrorObj (lit "Failed to fetch")))
    as (Hh & _ & Ht & _).
  - vm_compute. discriminate.
  - reflexivity.
  - cbv zeta. rewrite Hh, Ht. split; reflexivity.
Defined.

(** A rejection with a value that is no [Error] is reported with two
    different fallback texts. *)
Lemma fallback_texts_differ :
  let st' :=
    final Chat.issue (Sample.rejecting OtherValue)
      (Chat.handleSendMessage None 1 2 Sample.askSurvey) (Chat.initial 0 None)
  in
  map Msg.content (Chat.chatHistory st')
  = [ lit "Welcome to Forms Engine! Enter a prompt to generate a form.";
      Sample.askSurvey;
      lit "Error: Something went wrong" ]
  /\ map description (Chat.toasts st') = [lit "Failed to process request"]
  /\ lit "Error: Something went wrong" <> lit "Failed to process request"
  /\ lit "Error: Something went wrong"
     <> lit "Error: " ++ lit "Failed to process request".
Proof.
  repeat split; try reflexivity; vm_compute; discriminate.
Qed.

(** ** The theme manager *)

Section ThemeFacts.
Import Theme.

Lemma jsstr_eqb_eq (a b : jsstr) : jsstr_eqb a b = true <-> a = b.
Proof.
  unfold jsstr_eqb. destruct (list_eq_dec N.eq_dec a b); split; congruence.
Qed.

Lemma jsstr_eqb_refl (a : jsstr) : jsstr_eqb a a = true.
Proof. now apply jsstr_eqb_eq. Qed.


(** The class token of a theme name is valid exactly when the name has no
    ASCII whitespace. *)
Lemma validToken_theme (name : jsstr) :
  validToken (lit "theme-" ++ name) = negb (existsb isAsciiWhitespace name).
Proof.
  unfold validToken. rewrite existsb_app.
  replace (existsb isAsciiWhitespace (lit "theme-")) with false
    by (vm_compute; reflexivity).
  reflexivity.
Qed.

(** A name without ASCII whitespace: the call runs to its end. *)
Lemma applyTheme_completes (name : jsstr) (b : Browser) :
  existsb isAsciiWhitespace name = false ->
  applyTheme name b
  = (mkBrowser
       (tokens_add (lit "theme-" ++ name)
          (tokens_remove markerClasses (classList b)))
       (Some (getProperty fontMap name))
       (headLinks b)
       (setItem themeKey name (localStorage b))
       (toasts b
          ++ [mkToast (lit "Theme Changed")
                (lit "Applied " ++ name ++ lit " theme and font") default]),
     Returned tt).
Proof.
  intros H. unfold applyTheme. rewrite validToken_theme, H. reflexivity.
Qed.

(** A name with ASCII whitespace: [classList.add] throws when the marker
    classes are already removed, and nothing else happens. *)
Lemma applyTheme_throws (name : jsstr) (b : Browser) :
  existsb isAsciiWhitespace name = true ->
  applyTheme name b
  = (mkBrowser (tokens_remove markerClasses (classList b)) (fontPrimary b)
       (headLinks b) (localStorage b) (toasts b),
     Threw (ErrorObj (lit "InvalidCharacterError"))).
Proof.
  intros H. unfold applyTheme. rewrite validToken_theme, H. reflexivity.
Qed.

Lemma savedTheme_stored (b : Browser) (name : jsstr) :
  getItem themeKey (localStorage b) = Some name -> name <> [] ->
  savedTheme b = name.
Proof.
  intros H Hne. unfold savedTheme. rewrite H.
  destruct name; [contradiction|reflexivity].
Qed.




(** The names of the menu are accepted, and the table has their font. *)
Lemma themes_accepted (name : jsstr) :
  In name themes ->
  name <> [] /\ existsb isAsciiWhitespace name = false
  /\ exists font, getProperty fontMap name = str font.
Proof.
  intros H. repeat (destruct H as [<-|H]); try contradiction;
    (split; [discriminate | split; [reflexivity | eexists; reflexivity]]).
Qed.


(** After [applyTheme], the class of [name] is the only theme marker of
    the root element. *)
Lemma marker_unique (name : jsstr) (cl : list jsstr) (m : jsstr) :
  In m markerClasses ->
  In m (tokens_add (lit "theme-" ++ name) (tokens_remove markerClasses cl)) ->
  m = lit "theme-" ++ name.
Proof.
  intros Hm Hin. unfold tokens_add in Hin.
  assert (Hrem : ~ In m (tokens_remove markerClasses cl)).
  { intros H. apply filter_In in H. destruct H as [_ H].
    apply negb_true_iff in H.
    assert (existsb (jsstr_eqb m) markerClasses = true)
      by (apply existsb_exists; exists m; split;
          [exact Hm | apply jsstr_eqb_refl]).
    congruence. }
  destruct (existsb _ (tokens_remove markerClasses cl)).
  - contradiction.
  - apply in_app_or in Hin. destruct Hin as [Hin|[<-|[]]];
      [contradiction|reflexivity].
Qed.





End ThemeFacts.





(** ** The keyboard, the exports and what the panels show *)

Section ExportFacts.
Import Exports.
Variable FormConfig : Type.
Variable stringify : FormConfig -> jsstr.

Lemma freshId_above (ids : list N) (x : N) :
  In x ids -> x < freshId ids.
Proof.
  unfold freshId. induction ids as [|y r IH]; simpl; [tauto|].
  intros [->|Hin]; [lia|]. specialize (IH Hin). lia.
Qed.

Lemma filter_all {A} (f : A -> bool) (l : list A) :
  (forall x, In x l -> f x = true) -> filter f l = l.
Proof.
  induction l as [|a r IH]; simpl; intros H; [reflexivity|].
  rewrite (H a (or_introl eq_refl)). f_equal. apply IH. auto.
Qed.

(** Removing the node just created gives the children back. *)
Lemma filter_fresh_node (l : list Node) :
  filter (fun n => negb (nodeId n =? freshId (map nodeId l))) l = l.
Proof.
  apply filter_all. intros n Hn. apply negb_true_iff, N.eqb_neq.
  pose proof (freshId_above (map nodeId l) (nodeId n) (in_map nodeId l n Hn)).
  lia.
Qed.

Lemma filter_fresh_url (l : list (N * Blob)) :
  filter (fun e => negb (fst e =? freshId (map fst l))) l = l.
Proof.
  apply filter_all. intros e He. apply negb_true_iff, N.eqb_neq.
  pose proof (freshId_above (map fst l) (fst e) (in_map fst l e He)).
  lia.
Qed.

Lemma lookupURL_fresh (l : list (N * Blob)) (blob : Blob) :
  lookupURL (freshId (map fst l)) (l ++ [(freshId (map fst l), blob)])
  = Some blob.
Proof.
  assert (H : forall url, (forall e, In e l -> fst e <> url) ->
                          lookupURL url (l ++ [(url, blob)]) = Some blob).
  { intros url. induction l as [|[u b] r IH]; simpl; intros Hne.
    - now rewrite N.eqb_refl.
    - destruct (u =? url) eqn:E.
      + apply N.eqb_eq in E. exfalso. apply (Hne (u, b)); auto.
      + apply IH. intros e He. apply Hne. now right. }
  apply H. intros e He.
  pose proof (freshId_above (map fst l) (fst e) (in_map fst l e He)). lia.
Qed.

(** X3: a download with a committed configuration makes the browser save
    one file, "form-config.json", of type application/json, whose content
    is the serialised configuration, and notifies once; it completes
    normally and leaves behind neither the anchor it appended to the body
    nor a live object URL.  Without a committed configuration it does
    nothing at all. *)
Theorem download_saves_one_file_and_cleans_up :
  forall (d : Desk),
    handleDownloadJson stringify None d = (d, Returned tt)
    /\ forall c,
        handleDownloadJson stringify (Some c) d
        = (mkDesk (bodyChildren d) (objectURLs d)
             (downloads d
                ++ [(lit "form-config.json",
                     mkBlob (stringify c) (lit "application/json"))])
             (clipboardWrites d)
             (toasts d
                ++ [mkToast (lit "JSON downloaded")
                      (lit "Form configuration downloaded as JSON file")
                      default]),
           Returned tt).
Proof.
  intros d. split; [reflexivity|]. intros c.
  unfold handleDownloadJson, createObjectURL, createElement, appendChild,
    click, removeChild, revokeObjectURL, toast.
  cbn [bodyChildren objectURLs downloads clipboardWrites toasts nodeId].
  rewrite lookupURL_fresh.
  cbn [bodyChildren objectURLs downloads clipboardWrites toasts nodeId].
  rewrite existsb_app. cbn [existsb nodeId]. rewrite N.eqb_refl.
  cbn [orb]. rewrite orb_true_r.
  cbn [bodyChildren objectURLs downloads clipboardWrites toasts nodeId].
  rewrite !filter_app. cbn [filter nodeId fst].
  rewrite !N.eqb_refl. cbn [negb].
  rewrite filter_fresh_node, filter_fresh_url, !app_nil_r.
  reflexivity.
Qed.

(** X2: a copy with a committed configuration.  Where the browser
    defines [navigator.clipboard], the serialised configuration is handed
    to the clipboard, once, and one notification follows: "JSON copied"
    when the write succeeds, a destructive "Error" when it is refused;
    the handler completes normally and touches nothing else.  Where
    [navigator.clipboard] is undefined the handler throws a TypeError:
    nothing is written and nothing is notified.  Without a committed
    configuration nothing is written and nothing is notified either way. *)
Theorem copy_writes_once_and_notifies_once :
  forall (d : Desk) (clipboard : jsstr -> Settled unit),
    (forall clipboardDefined,
        exec writeText clipboard
          (handleCopyJson stringify clipboardDefined None) d
        = (d, Returned tt))
    /\ (forall c,
        exec writeText clipboard (handleCopyJson stringify true (Some c)) d
        = (mkDesk (bodyChildren d) (objectURLs d) (downloads d)
             (clipboardWrites d ++ [stringify c])
             (toasts d
                ++ [match clipboard (stringify c) with
                    | Fulfilled _ =>
                        mkToast (lit "JSON copied")
                          (lit "Form configuration copied to clipboard")
                          default
                    | Rejected _ =>
                        mkToast (lit "Error")
                          (lit "Failed to copy to clipboard") destructive
                    end]),
           Returned tt))
    /\ (forall c,
        exec writeText clipboard (handleCopyJson stringify false (Some c)) d
        = (d, Threw (ErrorObj (lit "TypeError")))).
Proof.
  intros d clipboard. split; [reflexivity|]. split; [|reflexivity].
  intros c. unfold handleCopyJson. cbn.
  destruct (clipboard (stringify c)) as [[]|e]; reflexivity.
Qed.

End ExportFacts.

(** ** The unified chat: keyboard, guard, transcript, status *)

Section ChatExtras.
Variable FormConfig : Type.
Implicit Types (st : Chat.Panel FormConfig) (userText : jsstr).
Implicit Types (fetch : Request FormConfig -> Settled (Response FormConfig)).

(** X1: a key press in the text area issues a request exactly when the
    key is Enter, shift is up and the prompt is not blank: then it is the
    one request of a submission of the prompt, and the newline is
    suppressed with it.  Enter with shift, and any other key, leave the
    panel as it is. *)
Theorem key_press_submits_on_plain_enter :
  forall st fetch key shiftKey tSent tDone,
    Chat.requests (ChatUI.keyDown fetch key shiftKey tSent tDone st)
    = Chat.requests st
        ++ (if ChatUI.preventsDefault key shiftKey
               && truthy (trim (Chat.prompt st))
            then [Chat.routed (Chat.formConfig st) (Chat.prompt st)]
            else [])
    /\ (ChatUI.preventsDefault key shiftKey = true ->
        ChatUI.keyDown fetch key shiftKey tSent tDone st
        = final Chat.issue fetch
            (Chat.handleSendMessage (Chat.formConfig st) tSent tDone
               (Chat.prompt st)) st)
    /\ (ChatUI.preventsDefault key shiftKey = false ->
        ChatUI.keyDown fetch key shiftKey tSent tDone st = st)
    /\ (ChatUI.preventsDefault key shiftKey = true
        <-> key = lit "Enter" /\ shiftKey = false).
Proof.
  intros st fetch key shiftKey tSent tDone.
  unfold ChatUI.keyDown, Chat.handleKeyDown, ChatUI.preventsDefault,
    Chat.submission.
  destruct (jsstr_eqb key (lit "Enter")) eqn:Ek;
    destruct shiftKey; cbn [andb negb].
  - rewrite app_nil_r. repeat split; try discriminate; try reflexivity.
    intros [_ H]; discriminate.
  - split; [apply handleSendMessage_requests|].
    repeat split; try discriminate. now apply jsstr_eqb_eq.
  - rewrite app_nil_r. repeat split; try discriminate; try reflexivity.
    intros [_ H]; discriminate.
  - rewrite app_nil_r. repeat split; try discriminate; try reflexivity.
    intros [H _]. apply jsstr_eqb_eq in H. congruence.
Qed.

Lemma interference_requests env :
  Chat.interference env ->
  forall st, Chat.requests (env st) = Chat.requests st.
Proof.
  intros H. induction H as [|t env _ IH|c env _ IH]; intros st; cbn; auto.
Qed.

Lemma interference_prompt env :
  Chat.interference env ->
  forall st, Chat.prompt (env st) = Chat.prompt st.
Proof.
  intros H. induction H as [|t env _ IH|c env _ IH]; intros st; cbn; auto.
Qed.

(** Reads the fields of a state of the trace through the interference. *)
Ltac read_through Henv :=
  unfold Chat.issueAndWait, Chat.inputDisabled, Chat.sendDisabled; cbn;
  repeat (rewrite ?(interference_chatHistory _ _ Henv),
                  ?(interference_isGenerating _ _ Henv),
                  ?(interference_requests _ Henv),
                  ?(interference_prompt _ Henv); cbn).

(** X4: while the panel waits for the gateway a second submission cannot
    start: in the state a step of a submission leaves by issuing a
    request, the text area and the send button are both disabled,
    whatever happens meanwhile.  When the submission has completed the
    prompt is empty: the text area is enabled again and the send button
    stays disabled until something is typed. *)
Theorem waiting_panel_is_disabled :
  forall st committed fetch env tSent tDone userText,
    Chat.interference env ->
    (forall s s',
        In (s, s')
          (steps (trace (Chat.issueAndWait env) fetch
                    (Chat.handleSendMessage committed tSent tDone userText)
                    st)) ->
        Chat.requests s' <> Chat.requests s ->
        Chat.inputDisabled s' = true /\ Chat.sendDisabled s' = true)
    /\ (truthy (trim userText) = true ->
        let st' :=
          final (Chat.issueAndWait env) fetch
            (Chat.handleSendMessage committed tSent tDone userText) st in
        Chat.prompt st' = []
        /\ Chat.inputDisabled st' = false
        /\ Chat.sendDisabled st' = true).
Proof.
  intros st committed fetch env tSent tDone userText Henv. split.
  - intros s s'. unfold Chat.handleSendMessage.
    destruct (trim userText) as [|c0 rest] eqn:Etrim; simpl truthy;
      simpl negb; cbv iota;
      [ | destruct committed as [current|];
          [ destruct (fetch (editRequest current userText))
              as [[[cfg|]]|err] eqn:?
          | destruct (fetch (promptRequest userText))
              as [[[cfg|]]|err] eqn:? ] ];
      settle fetch; intros Hin;
      repeat (destruct Hin as [Hin|Hin];
              [ injection Hin as <- <-; read_through Henv; intros Hreq;
                first [ exfalso; apply Hreq; reflexivity
                      | split; reflexivity ]
              | ]);
      destruct Hin.
  - unfold Chat.handleSendMessage.
    destruct (trim userText) as [|c0 rest] eqn:Etrim; simpl truthy;
      [discriminate|]; intros _; simpl negb; cbv iota.
    destruct committed as [current|];
      [ destruct (fetch (editRequest current userText))
          as [[[cfg|]]|err] eqn:?
      | destruct (fetch (promptRequest userText))
          as [[[cfg|]]|err] eqn:? ];
      unfold final; settle fetch; read_through Henv;
      repeat split; reflexivity.
Qed.

Lemma removePlaceholders_none (l : list (Msg.ChatMessage FormConfig)) :
  Chat.noPlaceholder l -> Chat.removePlaceholders l = l.
Proof.
  intros H. apply filter_all. intros m Hm. now rewrite (H m Hm).
Qed.

(** X5: a submission the panel accepts while idle only appends to the
    transcript: when it has completed, the transcript is the one before
    followed by the user's message and one closing assistant message,
    which is no placeholder.  On success the closing message carries the
    returned configuration, the one now committed; on failure it carries
    none and the committed configuration is the one before. *)
Theorem accepted_submission_appends_two_messages :
  forall st fetch tSent tDone,
    Chat.visited st ->
    Chat.sendDisabled st = false ->
    let st' := final Chat.issue fetch (Chat.submission tSent tDone st) st in
    let answer := fetch (Chat.routed (Chat.formConfig st) (Chat.prompt st)) in
    exists closing,
      Chat.chatHistory st'
      = Chat.chatHistory st
          ++ [Msg.mkMessage user (Chat.prompt st) tSent false None; closing]
      /\ Msg.role closing = assistant
      /\ Msg.isGenerating closing = false
      /\ Msg.timestamp closing = tDone
      /\ (forall c, answer = Fulfilled (mkResponse (Some c)) ->
          Msg.jsonData closing = Some c /\ Chat.formConfig st' = Some c)
      /\ (failed answer = true ->
          Msg.jsonData closing = None
          /\ Chat.formConfig st' = Chat.formConfig st).
Proof.
  intros st fetch tSent tDone Hv Hen st' answer.
  unfold Chat.sendDisabled in Hen. apply orb_false_iff in Hen.
  destruct Hen as [Hidle Hne]. apply negb_false_iff in Hne.
  assert (Hne' : trim (Chat.prompt st) <> [])
    by (destruct (trim (Chat.prompt st)); [discriminate|discriminate]).
  destruct (visited_wellPlaced FormConfig st Hv) as [_ Hno].
  specialize (Hno Hidle).
  destruct (caught answer) as [e|] eqn:Hc.
  - exists (Msg.mkMessage assistant
              (lit "Error: " ++ messageOr (lit "Something went wrong") e)
              tDone false None).
    subst st'. unfold final, Chat.submission.
    rewrite (handleSendMessage_failure FormConfig st _ fetch tSent tDone _ e
               Hne' Hc).
    cbn [fst Chat.chatHistory Chat.formConfig].
    rewrite removePlaceholders_submitted, removePlaceholders_none by exact Hno.
    rewrite <- app_assoc. do 4 (split; [reflexivity|]).
    split; [|intros _; split; reflexivity].
    intros c Hf. subst answer. rewrite Hf in Hc. discriminate.
  - subst answer.
    destruct (fetch (Chat.routed (Chat.formConfig st) (Chat.prompt st)))
      as [[[c|]]|e] eqn:Hf; try discriminate.
    eexists. subst st'. unfold final, Chat.submission.
    rewrite (handleSendMessage_success FormConfig st _ fetch tSent tDone _ c
               Hne' Hf).
    cbn [fst Chat.chatHistory Chat.formConfig].
    rewrite removePlaceholders_submitted, removePlaceholders_none by exact Hno.
    rewrite <- app_assoc. do 4 (split; [reflexivity|]).
    split; [|discriminate].
    intros c' Hc'. injection Hc' as <-. split; reflexivity.
Qed.

Lemma payloadsShown_app (l : list (Msg.ChatMessage FormConfig)) m :
  ChatUI.payloadsShown l ->
  (Msg.jsonData m <> None ->
   ChatUI.showsJsonPreview m = true /\ Msg.isGenerating m = false) ->
  ChatUI.payloadsShown (l ++ [m]).
Proof.
  intros Hl Hm x Hin. apply in_app_or in Hin. destruct Hin as [Hin|[<-|[]]].
  - now apply Hl.
  - exact Hm.
Qed.

Lemma payloadsShown_removed (l : list (Msg.ChatMessage FormConfig)) :
  ChatUI.payloadsShown l -> ChatUI.payloadsShown (Chat.removePlaceholders l).
Proof.
  intros Hl x Hin. apply filter_In in Hin. now apply Hl.
Qed.

Ltac payloads_shown Hp :=
  repeat first
    [ apply payloadsShown_removed
    | apply payloadsShown_app;
      [ | first [ intros _; split; reflexivity
                | intros Hnot; exfalso; apply Hnot; reflexivity ] ] ];
  exact Hp.

Lemma handleSendMessage_trace_payloads
  st committed fetch env tSent tDone userText :
  Chat.interference env ->
  ChatUI.payloadsShown (Chat.chatHistory st) ->
  forall st',
    In st' (trace (Chat.issueAndWait env) fetch
              (Chat.handleSendMessage committed tSent tDone userText) st) ->
    ChatUI.payloadsShown (Chat.chatHistory st').
Proof.
  intros Henv Hp st'. unfold Chat.handleSendMessage.
  destruct (trim userText) as [|c0 rest] eqn:Etrim; simpl truthy; simpl negb;
    cbv iota;
    [ | destruct committed as [current|];
        [ destruct (fetch (editRequest current userText))
            as [[[cfg|]]|err] eqn:?
        | destruct (fetch (promptRequest userText))
            as [[[cfg|]]|err] eqn:? ] ];
    settle fetch; intros Hin;
    repeat (destruct Hin as [<-|Hin];
            [read_through Henv; payloads_shown Hp|]);
    destruct Hin.
Qed.

(** X6: in every state the chat passes through, each message of the
    transcript that carries a configuration is an assistant message that
    is no placeholder: it is rendered with its JSON preview, and a user
    message, the welcome message or a placeholder never carries one. *)
Theorem payloads_are_shown :
  forall st,
    Chat.visited st ->
    forall m c,
      In m (Chat.chatHistory st) ->
      Msg.jsonData m = Some c ->
      ChatUI.showsJsonPreview m = true
      /\ Msg.role m = assistant
      /\ Msg.isGenerating m = false.
Proof.
  intros st Hv.
  assert (Hp : ChatUI.payloadsShown (Chat.chatHistory st)).
  { induction Hv as [t committed|st text _ IH _|st t _ IH|st committed _ IH
                    |st fetch env tSent tDone st' _ IH Hidle Henv Hin].
    - intros m [<-|[]] Hnot. exfalso. now apply Hnot.
    - exact IH.
    - exact IH.
    - exact IH.
    - exact (handleSendMessage_trace_payloads st (Chat.formConfig st) fetch
               env tSent tDone (Chat.prompt st) Henv IH st' Hin). }
  intros m c Hin Hc.
  destruct (Hp m Hin) as [Hs Hg]; [rewrite Hc; discriminate|].
  split; [exact Hs|]. split; [|exact Hg].
  unfold ChatUI.showsJsonPreview in Hs.
  destruct (Msg.role m); try discriminate. reflexivity.
Qed.

(** X7: the status line after a submission that is not blank.  The edit
    route never writes it.  The generate route sets it to "Form generated
    successfully" on success; when the call fails it stays at
    "Generating form...", yellow, although the panel is idle again.  The
    generator, in the same case, sets "Form generation failed", red. *)
Theorem status_line_after_submission :
  (forall st committed fetch tSent tDone userText,
      truthy (trim userText) = true ->
      let st' :=
        final Chat.issue fetch
          (Chat.handleSendMessage committed tSent tDone userText) st in
      (Chat.statusText st', Chat.statusColor st')
      = match committed with
        | Some _ => (Chat.statusText st, Chat.statusColor st)
        | None =>
            if failed (fetch (promptRequest userText))
            then (lit "Generating form...", lit "bg-yellow-500")
            else (lit "Form generated successfully", lit "bg-green-500")
        end)
  /\ (forall (st : Generator.Panel FormConfig) fetch promptValue,
      truthy (trim promptValue) = true ->
      let st' :=
        final Generator.issue fetch
          (Generator.handleGenerateForm promptValue) st in
      (Generator.statusText st', Generator.statusColor st')
      = if failed (fetch (promptRequest promptValue))
        then (lit "Form generation failed", lit "bg-red-500")
        else (lit "Form generated successfully", lit "bg-green-500")).
Proof.
  split.
  - intros st committed fetch tSent tDone userText.
    unfold Chat.handleSendMessage.
    by_cases userText committed fetch; intros H; try discriminate;
      reflexivity.
  - intros st fetch promptValue. unfold Generator.handleGenerateForm.
    by_call promptValue fetch
      (promptRequest (FormConfig:=FormConfig) promptValue);
      intros H; try discriminate; reflexivity.
Qed.

End ChatExtras.

(** ** The older variants: button, staging, overlapping edits *)

Section EditorExtras.
Variable FormConfig : Type.
Implicit Types (fetch : Request FormConfig -> Settled (Response FormConfig)).

(** X8: the generator's button is enabled only for a prompt its handler
    accepts: a click on the enabled button finds the panel idle and
    issues the one generate request for the prompt, and for a blank
    prompt the button is disabled, so the "Please enter a prompt"
    branch of the handler is not reached through the button. *)
Theorem enabled_button_generates :
  forall (st : Generator.Panel FormConfig) fetch,
    (GeneratorUI.generateDisabled st = false ->
     Generator.isGenerating st = false
     /\ trim (Generator.prompt st) <> []
     /\ Generator.requests (Generator.generate fetch st)
        = Generator.requests st ++ [promptRequest (Generator.prompt st)])
    /\ (trim (Generator.prompt st) = [] ->
        GeneratorUI.generateDisabled st = true).
Proof.
  intros st fetch. unfold GeneratorUI.generateDisabled. split.
  - intros H. apply orb_false_iff in H. destruct H as [Hidle Hne].
    apply negb_false_iff in Hne.
    assert (Hne' : trim (Generator.prompt st) <> [])
      by (destruct (trim (Generator.prompt st)); discriminate).
    split; [exact Hidle|]. split; [exact Hne'|].
    unfold Generator.generate, final.
    destruct (caught (fetch (promptRequest (Generator.prompt st))))
      as [e|] eqn:Hc.
    + now rewrite (generator_failure FormConfig st fetch _ e Hne' Hc).
    + destruct (fetch (promptRequest (Generator.prompt st)))
        as [[[c|]]|e] eqn:Hf; try discriminate.
      now rewrite (generator_success FormConfig st fetch _ c Hne' Hf).
  - intros ->. apply orb_true_r.
Qed.

(** The two outcomes of a generation in the intermediate variant. *)
Lemma editor_generate_success
  (st : Editor.Panel FormConfig) fetch promptValue c :
  trim promptValue <> [] ->
  fetch (promptRequest promptValue) = Fulfilled (mkResponse (Some c)) ->
  exec Editor.issue fetch (Editor.handleGenerateForm promptValue) st
  = (Editor.mkPanel (Editor.prompt st) false
       (lit "Form generated successfully") (lit "bg-green-500")
       (Some c) (Some c)
       [Editor.mkMessage assistant
          (lit "Here" ++ [0x2019] ++
           lit "s your initial JSON. You can now ask me to tweak it.")]
       true (Editor.chatInput st) (Editor.formConfig st)
       (Editor.toasts st
          ++ [mkToast (lit "Success")
                (lit "Form configuration generated successfully") default])
       (Editor.requests st ++ [promptRequest promptValue])
       (Editor.console st),
     Returned tt).
Proof.
  intros Hne Hf. unfold Editor.handleGenerateForm.
  by_call promptValue fetch (promptRequest (FormConfig:=FormConfig) promptValue);
    try contradiction; try discriminate; injection Hf as <-; reflexivity.
Qed.

Lemma editor_generate_failure
  (st : Editor.Panel FormConfig) fetch promptValue e :
  trim promptValue <> [] ->
  caught (fetch (promptRequest promptValue)) = Some e ->
  exec Editor.issue fetch (Editor.handleGenerateForm promptValue) st
  = (Editor.mkPanel (Editor.prompt st) false
       (lit "Form generation failed") (lit "bg-red-500")
       (Editor.generatedConfig st) (Editor.editedConfig st)
       (Editor.chatHistory st) (Editor.showEditor st) (Editor.chatInput st)
       (Editor.formConfig st)
       (Editor.toasts st
          ++ [mkToast (lit "Error")
                (messageOr (lit "Failed to generate form") e) destructive])
       (Editor.requests st ++ [promptRequest promptValue])
       (Editor.console st ++ [(lit "Error generating form:", e)]),
     Returned tt).
Proof.
  intros Hne Hc. unfold Editor.handleGenerateForm.
  by_call promptValue fetch (promptRequest (FormConfig:=FormConfig) promptValue);
    try contradiction; simpl in Hc; try discriminate;
    injection Hc as <-; reflexivity.
Qed.

(** X9: in the intermediate variant a successful generation stages the
    returned configuration twice, as generated and as edited, opens the
    edit chat and replaces its transcript, whatever it held, by the one
    opening message; the JSON pane then shows the returned
    configuration.  A failed generation leaves the staged
    configurations, the transcript and the sub-panel as they were. *)
Theorem generation_restarts_the_edit_chat :
  forall (st : Editor.Panel FormConfig) fetch promptValue,
    trim promptValue <> [] ->
    let st' :=
      final Editor.issue fetch (Editor.handleGenerateForm promptValue) st in
    (forall c,
        fetch (promptRequest promptValue) = Fulfilled (mkResponse (Some c)) ->
        Editor.generatedConfig st' = Some c
        /\ Editor.editedConfig st' = Some c
        /\ Editor.showEditor st' = true
        /\ List.length (Editor.chatHistory st') = 1%nat
        /\ map Editor.role (Editor.chatHistory st') = [assistant]
        /\ EditorUI.active st' = Some c)
    /\ (failed (fetch (promptRequest promptValue)) = true ->
        Editor.generatedConfig st' = Editor.generatedConfig st
        /\ Editor.editedConfig st' = Editor.editedConfig st
        /\ Editor.chatHistory st' = Editor.chatHistory st
        /\ Editor.showEditor st' = Editor.showEditor st
        /\ EditorUI.active st' = EditorUI.active st).
Proof.
  intros st fetch promptValue Hne st'. split.
  - intros c Hf. subst st'. unfold final.
    rewrite (editor_generate_success st fetch promptValue c Hne Hf).
    repeat split.
  - intros Hf. apply failed_caught in Hf. destruct Hf as [e He].
    subst st'. unfold final.
    rewrite (editor_generate_failure st fetch promptValue e Hne He).
    repeat split.
Qed.

(** X10: an edit answered with a body that has no [config] is taken for
    a success: the "Done" message is appended, nothing is notified, and
    the staged configuration is lost.  From then on the edit chat issues
    no request, "Apply Changes to Form" does nothing, and the JSON pane
    of the open sub-panel falls back to the configuration as
    generated. *)
Theorem edit_without_config_in_answer_unstages :
  forall (st : Editor.Panel FormConfig) fetch staged userText,
    trim userText <> [] ->
    Editor.editedConfig st = Some staged ->
    fetch (editRequest staged userText) = Fulfilled (mkResponse None) ->
    let st' :=
      final Editor.issue fetch
        (Editor.handleChatSend (Editor.editedConfig st) userText) st in
    Editor.editedConfig st' = None
    /\ map Editor.role (Editor.chatHistory st')
       = map Editor.role (Editor.chatHistory st) ++ [user; assistant]
    /\ Editor.toasts st' = Editor.toasts st
    /\ (forall fetch' text,
          exec Editor.issue fetch'
            (Editor.handleChatSend (Editor.editedConfig st') text) st'
          = (st', Returned tt))
    /\ Editor.applyChanges st' = st'
    /\ (Editor.showEditor st = true ->
        EditorUI.active st' = Editor.generatedConfig st).
Proof.
  intros st fetch staged userText Hne Hst Hf st'.
  assert (Hrun : st'
    = Editor.setChatHistory
        (fun h =>
           h ++ [Editor.mkMessage assistant
                   (0x2705 :: lit " Done! Here" ++ [0x2019] ++
                    lit "s the updated JSON.")])
        (Editor.setEditedConfig None
           (Editor.issue (editRequest staged userText)
              (Editor.setChatHistory
                 (fun h => h ++ [Editor.mkMessage user userText]) st)))).
  { subst st'. unfold final. rewrite Hst.
    now rewrite (handleChatSend_fulfilled FormConfig st fetch _ _ _ Hne Hf). }
  rewrite Hrun. cbn.
  split; [reflexivity|].
  split; [rewrite <- app_assoc, map_app; reflexivity|].
  split; [reflexivity|]. split; [reflexivity|]. split; [reflexivity|].
  intros Hshow. unfold EditorUI.active. cbn. now rewrite Hshow.
Qed.

(** What the edit chat's handler leaves when it hands control back. *)
Lemma handleChatSend_toAwait
  (st : Editor.Panel FormConfig) staged userText :
  trim userText <> [] ->
  exists k,
    toAwait Editor.issue (Editor.handleChatSend (Some staged) userText) st
    = (Editor.issue (editRequest staged userText)
         (Editor.setChatHistory
            (fun h => h ++ [Editor.mkMessage user userText]) st),
       Waiting (editRequest staged userText) k)
    /\ forall fetch r s,
        fst (exec Editor.issue fetch (k (Fulfilled r)) s)
        = Editor.setChatHistory
            (fun h =>
               h ++ [Editor.mkMessage assistant
                       (0x2705 :: lit " Done! Here" ++ [0x2019] ++
                        lit "s the updated JSON.")])
            (Editor.setEditedConfig (config r) s).
Proof.
  intros Hne. unfold Editor.handleChatSend.
  destruct (trim userText) eqn:E; [contradiction|]. cbn.
  eexists. split; [reflexivity|]. intros fetch r s. reflexivity.
Qed.

(** X11: nothing holds back a second edit while the first is awaited.
    Two edits sent one after the other before either is answered both
    carry the same staged configuration, so the second is no edit of the
    first's result; when both succeed the staged configuration ends as
    the answer that arrived last, whichever edit it belongs to, and the
    other answer is overwritten.  The transcript shows both user
    messages, then both confirmations. *)
Theorem overlapping_edits_last_answer_wins :
  forall (st : Editor.Panel FormConfig) fetch staged text1 text2 c1 c2
         firstAnswerFirst,
    Editor.editedConfig st = Some staged ->
    trim text1 <> [] -> trim text2 <> [] ->
    let st' :=
      EditorUI.overlappingEdits fetch text1 text2
        (Fulfilled (mkResponse (Some c1))) (Fulfilled (mkResponse (Some c2)))
        firstAnswerFirst st in
    Editor.requests st'
    = Editor.requests st
        ++ [editRequest staged text1; editRequest staged text2]
    /\ Editor.editedConfig st' = Some (if firstAnswerFirst then c2 else c1)
    /\ map Editor.role (Editor.chatHistory st')
       = map Editor.role (Editor.chatHistory st)
           ++ [user; user; assistant; assistant]
    /\ Editor.formConfig st' = Editor.formConfig st.
Proof.
  intros st fetch staged text1 text2 c1 c2 order Hst H1 H2 st'.
  subst st'. unfold EditorUI.overlappingEdits. rewrite Hst.
  destruct (handleChatSend_toAwait st staged text1 H1) as (k1 & E1 & K1).
  rewrite E1. cbn [Editor.editedConfig Editor.issue Editor.setChatHistory].
  rewrite Hst.
  destruct (handleChatSend_toAwait
              (Editor.issue (editRequest staged text1)
                 (Editor.setChatHistory
                    (fun h => h ++ [Editor.mkMessage user text1]) st))
              staged text2 H2) as (k2 & E2 & K2).
  cbn [Editor.editedConfig Editor.issue Editor.setChatHistory] in E2.
  rewrite E2. unfold resumeWith.
  destruct order; rewrite K1, K2; cbn;
    (split; [now rewrite <- app_assoc|]);
    (split; [reflexivity|]);
    (split; [now rewrite !map_app, <- !app_assoc|reflexivity]).
Qed.

(** X12: the edit chat's send button clears the input whatever becomes
    of the message.  The state it ends in is the handler's with the input
    cleared; so when nothing is staged, or the text is blank, the typed
    text is dropped and nothing else happens: no request, no message, no
    notification. *)
Theorem send_clears_the_edit_input :
  forall (st : Editor.Panel FormConfig) fetch,
    EditorUI.sendChat fetch st
    = Editor.setChatInput []
        (final Editor.issue fetch
           (Editor.handleChatSend (Editor.editedConfig st)
              (Editor.chatInput st)) st)
    /\ Editor.chatInput (EditorUI.sendChat fetch st) = []
    /\ (Editor.editedConfig st = None \/ trim (Editor.chatInput st) = [] ->
        EditorUI.sendChat fetch st = Editor.setChatInput [] st).
Proof.
  intros st fetch.
  assert (Hmain : EditorUI.sendChat fetch st
    = Editor.setChatInput []
        (final Editor.issue fetch
           (Editor.handleChatSend (Editor.editedConfig st)
              (Editor.chatInput st)) st)).
  { unfold EditorUI.sendChat, final, Editor.handleChatSend.
    destruct (Editor.editedConfig st) as [staged|]; [|reflexivity].
    destruct (trim (Editor.chatInput st)); [reflexivity|]. cbn.
    destruct (fetch (editRequest staged (Editor.chatInput st))) as [r|e];
      reflexivity. }
  split; [exact Hmain|]. split; [now rewrite Hmain|].
  intros H. rewrite Hmain. unfold final.
  destruct H as [H|H].
  - rewrite H. now rewrite handleChatSend_without_config.
  - now rewrite (handleChatSend_blank FormConfig st fetch _ _ H).
Qed.

(** X13: generation, edit and "Apply Changes to Form" in a row.  After
    the successful edit the JSON pane shows the edited configuration
    while the shared context, which copy and download read, still holds
    what it held before the generation; the click then commits the
    edited configuration, closes the sub-panel and notifies, and the
    pane shows what is committed. *)
Theorem generate_edit_apply_commits_last_answer :
  forall (st : Editor.Panel FormConfig) fetch userText c0 c1,
    trim (Editor.prompt st) <> [] -> trim userText <> [] ->
    fetch (promptRequest (Editor.prompt st))
    = Fulfilled (mkResponse (Some c0)) ->
    fetch (editRequest c0 userText) = Fulfilled (mkResponse (Some c1)) ->
    let generated := Editor.generate fetch st in
    let edited :=
      final Editor.issue fetch
        (Editor.handleChatSend (Editor.editedConfig generated) userText)
        generated in
    let applied := Editor.applyChanges edited in
    EditorUI.active edited = Some c1
    /\ Editor.formConfig edited = Editor.formConfig st
    /\ EditorUI.exportDisabled edited = EditorUI.exportDisabled st
    /\ Editor.formConfig applied = Some c1
    /\ Editor.showEditor applied = false
    /\ EditorUI.active applied = Some c1
    /\ EditorUI.exportDisabled applied = false
    /\ Editor.toasts applied
       = Editor.toasts edited
           ++ [mkToast (lit "Applied edits") (lit "Form JSON updated") default].
Proof.
  intros st fetch userText c0 c1 Hp Ht Hg He generated edited applied.
  assert (Hgen : Editor.editedConfig generated = Some c0
                 /\ Editor.showEditor generated = true
                 /\ Editor.formConfig generated = Editor.formConfig st).
  { subst generated. unfold Editor.generate, final.
    rewrite (editor_generate_success st fetch _ c0 Hp Hg). repeat split. }
  destruct Hgen as (Hed & Hshow & Hctx).
  assert (Hrun : edited
    = Editor.setChatHistory
        (fun h =>
           h ++ [Editor.mkMessage assistant
                   (0x2705 :: lit " Done! Here" ++ [0x2019] ++
                    lit "s the updated JSON.")])
        (Editor.setEditedConfig (Some c1)
           (Editor.issue (editRequest c0 userText)
              (Editor.setChatHistory
                 (fun h => h ++ [Editor.mkMessage user userText])
                 generated)))).
  { subst edited. unfold final. rewrite Hed.
    now rewrite (handleChatSend_fulfilled FormConfig generated fetch _ _ _
                   Ht He). }
  subst applied. rewrite Hrun.
  unfold EditorUI.active, EditorUI.exportDisabled, Editor.applyChanges. cbn.
  rewrite Hshow, Hctx. repeat split.
Qed.

End EditorExtras.

(** ** Switching themes *)

Section ThemeExtras.
Import Theme.

Lemma tokens_remove_add (token : jsstr) (cl : list jsstr) :
  In token markerClasses ->
  tokens_remove markerClasses (tokens_add token cl)
  = tokens_remove markerClasses cl.
Proof.
  intros Hin. unfold tokens_add.
  destruct (existsb (jsstr_eqb token) cl); [reflexivity|].
  unfold tokens_remove. rewrite filter_app. cbn [filter].
  replace (existsb (jsstr_eqb token) markerClasses) with true.
  - cbn. apply app_nil_r.
  - symmetry. apply existsb_exists. exists token.
    split; [exact Hin | apply jsstr_eqb_refl].
Qed.

Lemma tokens_remove_idem (cl : list jsstr) :
  tokens_remove markerClasses (tokens_remove markerClasses cl)
  = tokens_remove markerClasses cl.
Proof.
  unfold tokens_remove. apply filter_all.
  intros c Hc. apply filter_In in Hc. tauto.
Qed.

Lemma setItem_setItem (k v1 v2 : jsstr) (s : list (jsstr * jsstr)) :
  setItem k v2 (setItem k v1 s) = setItem k v2 s.
Proof.
  induction s as [|[k' v'] r IH]; simpl.
  - now rewrite jsstr_eqb_refl.
  - destruct (jsstr_eqb k k') eqn:E; simpl.
    + now rewrite jsstr_eqb_refl.
    + rewrite E. now rewrite IH.
Qed.

Lemma theme_class_is_marker (name : jsstr) :
  In name themes -> In (lit "theme-" ++ name) markerClasses.
Proof.
  intros H. repeat (destruct H as [<-|H]); try contradiction;
    vm_compute; tauto.
Qed.

(** X14: the last theme applied wins.  After a theme of the menu,
    applying a name leaves the root element's classes, the font property
    and the stored name exactly as applying that name directly would:
    nothing of the earlier theme remains, and applying a theme twice
    changes nothing but the number of notifications.  The "dark" class
    is off afterwards, and the classes that are no markers are kept. *)
Theorem last_theme_wins :
  forall (previous name : jsstr) (b : Browser),
    In previous themes ->
    existsb isAsciiWhitespace name = false ->
    let direct := fst (applyTheme name b) in
    let switched := fst (applyTheme name (fst (applyTheme previous b))) in
    classList switched = classList direct
    /\ fontPrimary switched = fontPrimary direct
    /\ localStorage switched = localStorage direct
    /\ ~ In (lit "dark") (classList direct)
    /\ (forall c,
          ~ In c markerClasses -> c <> lit "theme-" ++ name ->
          (In c (classList b) <-> In c (classList direct))).
Proof.
  intros previous name b Hprev Hws direct switched.
  destruct (themes_accepted previous Hprev) as (_ & Hws' & _).
  subst direct switched.
  rewrite (applyTheme_completes previous b Hws').
  rewrite !(applyTheme_completes name _ Hws).
  cbn [fst classList fontPrimary localStorage].
  split.
  { rewrite tokens_remove_add by now apply theme_class_is_marker.
    now rewrite tokens_remove_idem. }
  split; [reflexivity|]. split; [apply setItem_setItem|]. split.
  - intros Hdark. apply marker_unique in Hdark.
    + unfold lit in Hdark. simpl in Hdark. discriminate.
    + vm_compute. tauto.
  - intros c Hnot Hne. unfold tokens_add.
    assert (Hkeep : In c (classList b)
                    <-> In c (tokens_remove markerClasses (classList b))).
    { unfold tokens_remove. rewrite filter_In. split; [|tauto].
      intros Hin. split; [exact Hin|].
      apply negb_true_iff.
      destruct (existsb (jsstr_eqb c) markerClasses) eqn:E; [|reflexivity].
      apply existsb_exists in E. destruct E as (m & Hm & E).
      apply jsstr_eqb_eq in E. subst m. contradiction. }
    destruct (existsb _ (tokens_remove markerClasses (classList b)));
      [exact Hkeep|].
    rewrite Hkeep, in_app_iff. split; [tauto|].
    intros [H|[H|[]]]; [exact H|]. now symmetry in H.
Qed.

End ThemeExtras.

(** ** What is never lost, and what never recovers *)

Section MoreExtras.
Variable FormConfig : Type.
Implicit Types (st : Chat.Panel FormConfig) (userText : jsstr).
Implicit Types (fetch : Request FormConfig -> Settled (Response FormConfig)).

Lemma said_app (l l' : list (Msg.ChatMessage FormConfig)) :
  ChatUI.said (l ++ l') = ChatUI.said l ++ ChatUI.said l'.
Proof.
  induction l as [|m r IH]; simpl; [reflexivity|].
  destruct (Msg.isGenerating m); simpl; now rewrite IH.
Qed.

(** Removing the placeholders removes nothing that was said. *)
Lemma said_filter (l : list (Msg.ChatMessage FormConfig)) :
  ChatUI.said (filter (fun msg => negb (Msg.isGenerating msg)) l)
  = ChatUI.said l.
Proof.
  induction l as [|m r IH]; simpl; [reflexivity|].
  destruct (Msg.isGenerating m) eqn:E; simpl; rewrite ?E; now rewrite IH.
Qed.

(** X16: the transcript is append-only but for its placeholders.  At
    every step of a submission, whatever the gateway answers and
    whatever happens meanwhile, the messages that are no placeholders
    stay, in their order, and new ones come after them: nothing the
    user or the assistant said is dropped or reordered. *)
Theorem transcript_only_grows :
  forall st committed fetch env tSent tDone userText,
    Chat.interference env ->
    forall s s',
      In (s, s')
        (steps (trace (Chat.issueAndWait env) fetch
                  (Chat.handleSendMessage committed tSent tDone userText)
                  st)) ->
      exists added,
        ChatUI.said (Chat.chatHistory s')
        = ChatUI.said (Chat.chatHistory s) ++ added.
Proof.
  intros st committed fetch env tSent tDone userText Henv s s'.
  unfold Chat.handleSendMessage.
  destruct (trim userText) as [|c0 rest] eqn:Etrim; simpl truthy;
    simpl negb; cbv iota;
    [ | destruct committed as [current|];
        [ destruct (fetch (editRequest current userText))
            as [[[cfg|]]|err] eqn:?
        | destruct (fetch (promptRequest userText))
            as [[[cfg|]]|err] eqn:? ] ];
    settle fetch; intros Hin;
    repeat (destruct Hin as [Hin|Hin];
            [ injection Hin as <- <-;
              unfold Chat.issueAndWait; cbn;
              repeat (rewrite ?(interference_chatHistory _ _ Henv); cbn);
              unfold Chat.removePlaceholders;
              repeat (progress (rewrite ?said_filter, ?said_app));
              cbn [ChatUI.said Msg.isGenerating];
              rewrite ?app_nil_r, ?app_assoc;
              first
                [ exists []; now rewrite app_nil_r
                | eexists; reflexivity ]
            | ]);
    destruct Hin.
Qed.

End MoreExtras.

Section StartupFailure.
Import Theme.

(** X15: a stored name with ASCII whitespace breaks startup for good.
    The mount effect throws: the theme classes of the page are stripped,
    no theme class and no font property is set, no font link is added
    and nothing is notified; the stored name is not touched, so the
    startup after a reload fails in the same way. *)
Theorem stored_name_with_whitespace_breaks_startup :
  forall (b : Browser) (name : jsstr) (classes : list jsstr),
    getItem themeKey (localStorage b) = Some name ->
    existsb isAsciiWhitespace name = true ->
    initializeTheme b
    = (mkBrowser (tokens_remove markerClasses (classList b)) (fontPrimary b)
         (headLinks b) (localStorage b) (toasts b),
       Threw (ErrorObj (lit "InvalidCharacterError")))
    /\ initializeTheme (reload classes (fst (initializeTheme b)))
       = (mkBrowser (tokens_remove markerClasses classes) None []
            (localStorage b) [],
          Threw (ErrorObj (lit "InvalidCharacterError"))).
Proof.
  intros b name classes Hst Hws.
  assert (Hne : name <> []) by (intros ->; discriminate).
  assert (H : forall b0, getItem themeKey (localStorage b0) = Some name ->
    initializeTheme b0
    = (mkBrowser (tokens_remove markerClasses (classList b0)) (fontPrimary b0)
         (headLinks b0) (localStorage b0) (toasts b0),
       Threw (ErrorObj (lit "InvalidCharacterError")))).
  { intros b0 H0. unfold initializeTheme.
    rewrite (savedTheme_stored b0 name H0 Hne).
    now rewrite (applyTheme_throws name b0 Hws). }
  split; [now apply H|].
  rewrite (H b Hst). cbn [fst]. rewrite H; [reflexivity|exact Hst].
Qed.

End StartupFailure.

(** ** More concrete runs *)

(** The first prompt of the chat: the panel is disabled while it waits,
    and idle with an empty prompt and a disabled send button after. *)
Lemma first_prompt_leaves_send_disabled :
  let st' :=
    final (Chat.issueAndWait (fun st => st)) Scenario.gateway
      (Chat.handleSendMessage None 1 2 Sample.askSurvey) Scenario.chatTyped in
  Chat.prompt st' = []
  /\ Chat.inputDisabled st' = false
  /\ Chat.sendDisabled st' = true.
Proof.
  destruct (waiting_panel_is_disabled Sample.Json Scenario.chatTyped None
              Scenario.gateway (fun st => st) 1 2 Sample.askSurvey)
    as [_ H].
  - apply Chat.interference_none.
  - apply H. reflexivity.
Defined.

Lemma chatTyped_visited : Chat.visited Scenario.chatTyped.
Proof.
  apply Chat.visited_change; [apply Chat.visited_initial | reflexivity].
Qed.

Lemma chatAnswered_visited : Chat.visited Scenario.chatAnswered.
Proof.
  apply Chat.visited_submission
    with (st := Scenario.chatTyped) (fetch := Scenario.gateway)
         (env := fun st => st) (tSent := 1) (tDone := 2).
  - exact chatTyped_visited.
  - reflexivity.
  - apply Chat.interference_none.
  - vm_compute. do 14 right. left. reflexivity.
Qed.

(** The first prompt, answered: welcome, prompt, confirmation. *)
Lemma first_prompt_appends_question_and_answer :
  map Msg.role (Chat.chatHistory Scenario.chatAnswered)
  = [system; user; assistant]
  /\ Chat.formConfig Scenario.chatAnswered = Some Sample.survey.
Proof.
  destruct (accepted_submission_appends_two_messages Sample.Json
              Scenario.chatTyped Scenario.gateway 1 2 chatTyped_visited
              eq_refl)
    as (closing & Hh & Hrole & _ & _ & Hok & _).
  destruct (Hok Sample.survey eq_refl) as [_ Hcfg].
  split; [|exact Hcfg].
  unfold Scenario.chatAnswered. rewrite Hh, map_app. cbn. now rewrite Hrole.
Defined.

(** The confirmation of the first prompt is shown with its JSON. *)
Lemma confirmation_is_shown_with_its_json :
  exists m,
    In m (Chat.chatHistory Scenario.chatAnswered)
    /\ Msg.jsonData m = Some Sample.survey
    /\ ChatUI.showsJsonPreview m = true
    /\ Msg.role m = assistant
    /\ Msg.isGenerating m = false.
Proof.
  assert (Hin : In (Msg.mkMessage assistant
                      (0x2705 :: lit " Form generated successfully! Here's the JSON. You can now ask me to modify specific parts of the form.")
                      2 false (Some Sample.survey))
                  (Chat.chatHistory Scenario.chatAnswered)).
  { vm_compute. right. right. left. reflexivity. }
  eexists. split; [exact Hin|]. split; [reflexivity|].
  exact (payloads_are_shown Sample.Json Scenario.chatAnswered
           chatAnswered_visited _ Sample.survey Hin eq_refl).
Defined.

(** A rejected first prompt leaves the chat's status at "Generating
    form...". *)
Lemma rejected_generation_leaves_stale_status :
  Chat.statusText
    (final Chat.issue (Sample.rejecting OtherValue)
       (Chat.handleSendMessage None 1 2 Sample.askSurvey) Scenario.chatTyped)
  = lit "Generating form...".
Proof.
  pose proof (proj1 (status_line_after_submission Sample.Json)
                Scenario.chatTyped None (Sample.rejecting OtherValue) 1 2
                Sample.askSurvey eq_refl) as H.
  exact (f_equal fst H).
Defined.

(** The typed prompt enables the generator's button, and a click on it
    sends the prompt. *)
Lemma typed_prompt_is_sent :
  Generator.requests (Generator.generate Scenario.gateway Scenario.generatorTyped)
  = [promptRequest Sample.askSurvey].
Proof.
  destruct (proj1 (enabled_button_generates Sample.Json
                     Scenario.generatorTyped Scenario.gateway) eq_refl)
    as (_ & _ & H).
  exact H.
Defined.

(** A generation in the intermediate variant opens the edit chat on the
    returned configuration. *)
Lemma generation_opens_the_edit_chat :
  let st' := Editor.generate Scenario.gateway Scenario.editorTyped in
  Editor.editedConfig st' = Some Sample.survey
  /\ Editor.showEditor st' = true
  /\ EditorUI.active st' = Some Sample.survey.
Proof.
  destruct (generation_restarts_the_edit_chat Sample.Json Scenario.editorTyped
              Scenario.gateway Sample.askSurvey) as [H _].
  - vm_compute. discriminate.
  - destruct (H Sample.survey eq_refl) as (_ & He & Hs & _ & _ & Ha).
    repeat split; assumption.
Defined.

(** An edit answered without [config] empties the staged configuration;
    the pane falls back to the generated one. *)
Lemma forgetful_answer_unstages :
  let st' :=
    final Editor.issue Scenario.forgetful
      (Editor.handleChatSend (Editor.editedConfig Sample.editorStaged)
         Sample.askPhone)
      Sample.editorStaged in
  Editor.editedConfig st' = None
  /\ EditorUI.active st' = Some Sample.survey
  /\ Editor.applyChanges st' = st'.
Proof.
  destruct (edit_without_config_in_answer_unstages Sample.Json
              Sample.editorStaged Scenario.forgetful Sample.survey
              Sample.askPhone)
    as (He & _ & _ & _ & Ha & Hact).
  - vm_compute. discriminate.
  - reflexivity.
  - reflexivity.
  - split; [exact He|]. split; [|exact Ha]. now apply Hact.
Defined.

(** Two overlapping edits of [survey]: the answer to the first arrives
    last and is what stays staged. *)
Lemma late_first_answer_overwrites_second :
  let st' :=
    EditorUI.overlappingEdits Scenario.gateway Sample.askPhone
      (lit "add an address field")
      (Fulfilled (mkResponse (Some Sample.surveyWithPhone)))
      (Fulfilled (mkResponse (Some (Sample.mkJson [lit "address"]))))
      false Sample.editorStaged in
  Editor.editedConfig st' = Some Sample.surveyWithPhone
  /\ map (@body Sample.Json) (Editor.requests st')
     = [ PromptPayload Sample.askSurvey;
         EditPayload Sample.survey Sample.askPhone;
         EditPayload Sample.survey (lit "add an address field") ].
Proof.
  destruct (overlapping_edits_last_answer_wins Sample.Json Sample.editorStaged
              Scenario.gateway Sample.survey Sample.askPhone
              (lit "add an address field") Sample.surveyWithPhone
              (Sample.mkJson [lit "address"]) false)
    as (Hr & He & _).
  - reflexivity.
  - vm_compute. discriminate.
  - vm_compute. discriminate.
  - split; [exact He|]. cbv zeta. rewrite Hr. reflexivity.
Defined.

(** Generate, edit, apply: the edited configuration is committed. *)
Lemma apply_commits_the_edit :
  let generated := Editor.generate Scenario.gateway Scenario.editorTyped in
  let edited :=
    final Editor.issue Scenario.gateway
      (Editor.handleChatSend (Editor.editedConfig generated) Sample.askPhone)
      generated in
  Editor.formConfig edited = None
  /\ Editor.formConfig (Editor.applyChanges edited)
     = Some Sample.surveyWithPhone
  /\ Editor.showEditor (Editor.applyChanges edited) = false.
Proof.
  destruct (generate_edit_apply_commits_last_answer Sample.Json
              Scenario.editorTyped Scenario.gateway Sample.askPhone
              Sample.survey Sample.surveyWithPhone)
    as (_ & Hctx & _ & Hcommit & Hshow & _).
  - vm_compute. discriminate.
  - vm_compute. discriminate.
  - reflexivity.
  - reflexivity.
  - repeat split; assumption.
Defined.

(** "classic" after "modern" on a page in dark mode with a class of its
    own: only "classic" and the page's class remain. *)
Lemma classic_after_modern :
  Theme.classList
    (fst (Theme.applyTheme (lit "classic")
            (fst (Theme.applyTheme (lit "modern")
                    (Theme.firstVisit [lit "dark"; lit "app"])))))
  = [lit "app"; lit "theme-classic"].
Proof.
  destruct (last_theme_wins (lit "modern") (lit "classic")
              (Theme.firstVisit [lit "dark"; lit "app"]))
    as (Hcl & _).
  - left. reflexivity.
  - reflexivity.
  - rewrite Hcl. reflexivity.
Defined.

(** A download on a page with other content: the file is saved and the
    page is as before. *)
Lemma download_on_a_busy_page :
  let d' := fst (Exports.handleDownloadJson Scenario.show (Some Sample.survey)
                   Scenario.desk) in
  Exports.bodyChildren d' = Exports.bodyChildren Scenario.desk
  /\ Exports.objectURLs d' = Exports.objectURLs Scenario.desk
  /\ map fst (Exports.downloads d') = [lit "form-config.json"].
Proof.
  cbv zeta.
  rewrite (proj2 (download_saves_one_file_and_cleans_up Sample.Json
                    Scenario.show Scenario.desk) Sample.survey).
  repeat split.
Defined.

(** The step of the first prompt that removes the placeholder keeps
    the welcome and the prompt. *)
Lemma placeholder_removal_keeps_what_was_said :
  let logged :=
    Chat.consoleError (lit "Error:", OtherValue) Sample.chatAwaiting in
  let resolved := Chat.setChatHistory Chat.removePlaceholders logged in
  map Msg.content (ChatUI.said (Chat.chatHistory logged))
  = [ lit "Welcome to Forms Engine! Enter a prompt to generate a form.";
      lit "Create a survey with name and email" ]
  /\ exists added,
       ChatUI.said (Chat.chatHistory resolved)
       = ChatUI.said (Chat.chatHistory logged) ++ added.
Proof.
  split; [reflexivity|].
  apply (transcript_only_grows Sample.Json
           (Chat.setPrompt Sample.askSurvey (Chat.initial 0 None)) None
           (Sample.rejecting OtherValue) (fun st => st) 1 2 Sample.askSurvey
           (Chat.interference_none Sample.Json)).
  vm_compute. do 8 right. left. reflexivity.
Defined.

(** "my theme", stored by hand, fails at startup and stays stored. *)
Lemma my_theme_breaks_startup :
  let b := Theme.mkBrowser [lit "theme-modern"] None []
             [(Theme.themeKey, lit "my theme")] [] in
  snd (Theme.initializeTheme b)
  = Threw (ErrorObj (lit "InvalidCharacterError"))
  /\ Theme.classList (fst (Theme.initializeTheme b)) = []
  /\ Theme.getItem Theme.themeKey
       (Theme.localStorage (fst (Theme.initializeTheme b)))
     = Some (lit "my theme").
Proof.
  destruct (stored_name_with_whitespace_breaks_startup
              (Theme.mkBrowser [lit "theme-modern"] None []
                 [(Theme.themeKey, lit "my theme")] [])
              (lit "my theme") [])
    as [H _].
  - reflexivity.
  - reflexivity.
  - cbv zeta. rewrite H. repeat split.
Defined.
